(** * jcc-jingtum-lib: sequence bookkeeping and the submission retry loop

    A shallow embedding of [src/index.ts] (classes [Wallet] and
    [Transaction]).  Asynchronous code is run sequentially: one call at a
    time, every [await] answered by the network scripts below. *)

From Stdlib Require Import ZArith QArith Qround String List Lia SpecFloat.
From stdpp Require Import base option list gmap strings pretty.

Local Open Scope Z_scope.
Local Open Scope string_scope.
Local Open Scope list_scope.

Set Warnings "-register-all".

(** ** JavaScript values *)

(** Values parsed from the node's JSON answers and held in transaction
    fields.  Their numbers (sequence numbers, fees) are integers.  An object
    lists its own properties in insertion order. *)
Inductive JsValue : Type :=
| JsUndefined
| JsNull
| JsBool (b : bool)
| JsNumber (n : Z)
| JsString (s : string)
| JsArray (items : list JsValue)
| JsObject (props : list (string * JsValue)).

(** What a [throw] carries: [new Error(message)], or the engine's
    [TypeError] for reading [property] of [undefined] or [null]. *)
Inductive JsError : Type :=
| Error (message : string)
| TypeError (property : string).

Definition own_prop (name : string) (props : list (string * JsValue)) : JsValue :=
  match find (fun kv => String.eqb (fst kv) name) props with
  | Some kv => snd kv
  | None => JsUndefined
  end.

(** [v[name]] for a [v] that is neither [undefined] nor [null].  The names
    read by this program ([result], [engine_result], [tx_json], [hash]) are
    not properties of any primitive's prototype, nor of arrays. *)
Definition get_prop (v : JsValue) (name : string) : JsValue :=
  match v with
  | JsObject props => own_prop name props
  | _ => JsUndefined
  end.

Definition is_nullish (v : JsValue) : bool :=
  match v with
  | JsUndefined | JsNull => true
  | _ => false
  end.

(** [v.name] *)
Definition member (v : JsValue) (name : string) : JsError + JsValue :=
  if is_nullish v then inl (TypeError name) else inr (get_prop v name).

(** [v?.name] *)
Definition opt_member (v : JsValue) (name : string) : JsValue :=
  if is_nullish v then JsUndefined else get_prop v name.

(** ToBoolean *)
Definition truthy (v : JsValue) : bool :=
  match v with
  | JsUndefined | JsNull => false
  | JsBool b => b
  | JsNumber n => negb (n =? 0)%Z
  | JsString s => negb (String.eqb s "")
  | JsArray _ | JsObject _ => true
  end.

(** [v === "s"] *)
Definition strict_eq_str (v : JsValue) (s : string) : bool :=
  match v with
  | JsString t => String.eqb t s
  | _ => false
  end.

(** ** Numbers *)

(** A JS number is an IEEE 754 binary64 value: 53 bits of precision, the
    infinities at exponent 1024, signed zeros and NaN. *)
Definition number : Type := spec_float.

(** [x - y], rounded to the nearest number, ties to even. *)
Definition js_sub (x y : number) : number := SFsub 53 1024 x y.

(** [x < y]: false when either side is NaN. *)
Definition js_lt (x y : number) : bool := SFltb x y.

(** [x <= y] *)
Definition js_le (x y : number) : bool := SFleb x y.

(** The number an integer literal denotes: the nearest binary64 value. *)
Definition number_of_Z (n : Z) : number := binary_normalize 53 1024 n 0 false.

Definition js_zero : number := number_of_Z 0.

Definition js_one : number := number_of_Z 1.


(** The 53-bit mantissa of a positive integer below [2 ^ 53]. *)
Definition mantissa_of (q : positive) : positive :=
  Z.to_pos (Zpos q * 2 ^ (53 - Zpos (digits2_pos q))).

Arguments js_sub : simpl never.
Arguments js_lt : simpl never.
Arguments js_le : simpl never.
Arguments number_of_Z : simpl never.
Arguments js_zero : simpl never.
Arguments js_one : simpl never.

(** ** Transaction objects and the store *)

(** A transaction description as built by [./tx]: [Account] is the sender's
    address, [fields] the other own properties in insertion order. *)
Record TxJson : Type := mkTx {
  Account : string;
  fields : list (string * JsValue)
}.

(** [o[name] = v] on the own properties: an existing key keeps its place. *)
Fixpoint assign_prop (name : string) (v : JsValue) (props : list (string * JsValue))
  : list (string * JsValue) :=
  match props with
  | [] => [(name, v)]
  | (k, x) :: rest =>
      if String.eqb k name then (k, v) :: rest else (k, x) :: assign_prop name v rest
  end.

Definition with_prop (name : string) (v : JsValue) (o : TxJson) : TxJson :=
  mkTx (Account o) (assign_prop name v (fields o)).

(** References to transaction objects: indices in the store. *)
Definition loc := nat.

Record SignResult : Type := mkSignResult {
  sr_hash : string;
  sr_blob : string
}.

(** Completed calls of the collaborators, in the order they finished. *)
Inductive Event : Type :=
| EvRandom (r : Q)
| EvFetch (node : JsValue) (address : string) (result : JsError + Z)
| EvGet (address : string) (node : JsValue) (result : JsError + Z)
| EvSubmit (node : JsValue) (blob : string) (result : JsError + JsValue).

(** The process state: the sequence cache of [swtcSequence], the mutable
    transaction objects, the calls made so far and how many answers of each
    script were consumed. *)
Record World : Type := mkWorld {
  cache : gmap string Z;
  heap : list TxJson;
  trace : list Event;
  randoms : nat;
  fetched : nat;
  submitted : nat
}.

Definition with_cache (c : gmap string Z) (w : World) : World :=
  mkWorld c (heap w) (trace w) (randoms w) (fetched w) (submitted w).

Definition with_heap (h : list TxJson) (w : World) : World :=
  mkWorld (cache w) h (trace w) (randoms w) (fetched w) (submitted w).

Definition log (ev : Event) (w : World) : World :=
  mkWorld (cache w) (heap w) (trace w ++ [ev]) (randoms w) (fetched w) (submitted w).

(** ** The effect monad: state, exceptions and fuel for the [while] loop *)

Inductive Outcome (A : Type) : Type :=
| Returned (a : A) (w : World)
| Threw (e : JsError) (w : World)
| OutOfFuel (w : World).

Arguments Returned {A} a w.
Arguments Threw {A} e w.
Arguments OutOfFuel {A} w.

Definition M (A : Type) : Type := World -> Outcome A.

Definition ret {A} (a : A) : M A := fun w => Returned a w.

Definition throw {A} (e : JsError) : M A := fun w => Threw e w.

Definition bind {A B} (m : M A) (k : A -> M B) : M B :=
  fun w =>
    match m w with
    | Returned a w' => k a w'
    | Threw e w' => Threw e w'
    | OutOfFuel w' => OutOfFuel w'
    end.

Notation "x <- m ;; k" := (bind m (fun x => k))
  (at level 62, m at next level, right associativity).
Notation "m ;;; k" := (bind m (fun _ => k))
  (at level 62, right associativity).

(** [try { body } catch (error) { handler error }] *)
Definition try_catch {A} (body : M A) (handler : JsError -> M A) : M A :=
  fun w =>
    match body w with
    | Threw e w' => handler e w'
    | other => other
    end.

Definition lift {A} (r : JsError + A) : M A :=
  match r with
  | inl e => throw e
  | inr a => ret a
  end.

Definition world_of {A} (o : Outcome A) : World :=
  match o with
  | Returned _ w | Threw _ w | OutOfFuel w => w
  end.

Definition is_returned {A} (o : Outcome A) : bool :=
  match o with
  | Returned _ _ => true
  | _ => false
  end.

Definition is_threw {A} (o : Outcome A) : bool :=
  match o with
  | Threw _ _ => true
  | _ => false
  end.

Definition is_pending {A} (o : Outcome A) : bool :=
  match o with
  | OutOfFuel _ => true
  | _ => false
  end.

(** ** The store *)

(** Reading an object through a reference.  A reference held by the
    program designates an object of the store; reading [tx.Account] through
    anything else ([undefined], [null]) is the engine's [TypeError]. *)
Definition deref (l : loc) : M TxJson :=
  fun w =>
    match heap w !! l with
    | Some o => Returned o w
    | None => Threw (TypeError "Account") w
    end.

(** A new object with the content [o], at the next location. *)
Definition alloc (o : TxJson) : M loc :=
  fun w => Returned (length (heap w)) (with_heap (heap w ++ [o]) w).

(** [Object.assign({}, tx)] *)
Definition Object_assign_fresh (tx : loc) : M loc :=
  o <- deref tx ;; alloc o.

(** [l[name] = v] *)
Definition set_prop (l : loc) (name : string) (v : JsValue) : M unit :=
  fun w => Returned tt (with_heap (alter (with_prop name v) l (heap w)) w).

(** ** Collaborators *)

Inductive ExchangeType : Type := buy | sell.

(** A memo argument: [string | IMemo[]]. *)
Inductive MemoArg (IMemo : Type) : Type :=
| MemoText (s : string)
| MemoList (l : list IMemo).

Arguments MemoText {IMemo} s.
Arguments MemoList {IMemo} l.

(** The libraries the module imports and the constructors of [./tx], which
    are not part of the sources: the key pair of [@swtc/wallet], the
    serializer of [@swtc/serializer], [HASHPREFIX] of [@swtc/common], the
    chain's constants, the built-ins used on them, and one constructor per
    facade operation.  A constructor or a library call that can throw returns
    a sum. *)
Class Collaborators : Type := {
  KeyPair : Type;
  Blob : Type;
  IMemo : Type;
  ISignerEntry : Type;
  TokenInfo : Type;
  TokenFlag : Type;
  (* new this.wallet(secret) and its methods *)
  wallet_new : string -> JsError + KeyPair;
  getPublicKey : KeyPair -> JsValue;
  isEd25519 : KeyPair -> bool;
  signTx : KeyPair -> string -> JsValue;
  (* this.serializer.from_json(tx) and the methods of its result *)
  from_json : TxJson -> JsError + Blob;
  to_hex : Blob -> string;
  blob_hash : Blob -> Z -> string;
  (* HASHPREFIX.transactionSig, Number.prototype.toString(16),
     String.prototype.toUpperCase *)
  transactionSig : Z;
  toString16 : Z -> string;
  toUpperCase : string -> string;
  (* JSON.stringify on a value other than undefined *)
  JSON_stringify_defined : JsValue -> string;
  (* this.wallet.getFee(), getCurrency(), getIssuer() *)
  wallet_getFee : Z;
  wallet_getCurrency : string;
  wallet_getIssuer : string;
  (* ./tx *)
  serializeCreateOrder :
    string -> string -> string -> string -> string -> ExchangeType -> string ->
    string -> Z -> string -> JsError + TxJson;
  serializeCancelOrder : string -> Z -> Z -> JsError + TxJson;
  serializePayment :
    string -> string -> string -> string -> MemoArg IMemo -> Z -> string ->
    string -> JsError + TxJson;
  serializeBrokerage :
    string -> string -> Z -> Z -> string -> string -> Z -> JsError + TxJson;
  serializeSetBlackList : string -> string -> MemoArg IMemo -> Z -> JsError + TxJson;
  serializeRemoveBlackList : string -> string -> MemoArg IMemo -> Z -> JsError + TxJson;
  serializeManageIssuer : string -> string -> MemoArg IMemo -> Z -> JsError + TxJson;
  serializeIssueSet :
    string -> string -> string -> MemoArg IMemo -> JsValue -> Z -> JsError + TxJson;
  serializeSignerList :
    string -> Z -> Z -> option (list ISignerEntry) -> JsError + TxJson;
  serializeSetAccount : string -> bool -> Z -> JsError + TxJson;
  serialize721Payment :
    string -> string -> string -> Z -> option (MemoArg IMemo) -> JsError + TxJson;
  serialize721Delete : string -> string -> Z -> JsError + TxJson;
  serializeTokenIssue :
    string -> string -> Z -> string -> TokenFlag -> Z -> JsError + TxJson;
  serialize721Publish :
    string -> string -> string -> string -> Z -> option (list TokenInfo) ->
    JsError + TxJson
}.

(** The outside world as scripts: the k-th call of [Math.random] returns
    [Math_random k]; the k-th RPC of each kind is answered by the k-th entry
    of its script, a rejected promise being [inl]. *)
Class Network : Type := {
  Math_random : nat -> Q;
  fetchSequence_script : nat -> JsError + Z;
  submitTransaction_script : nat -> JsError + JsValue
}.

(** [JSON.stringify(v)]: [undefined] has no serialization. *)
Definition JSON_stringify `{Collaborators} (v : JsValue) : option string :=
  match v with
  | JsUndefined => None
  | _ => Some (JSON_stringify_defined v)
  end.

(** [new Error(m)]: an undefined message leaves the default, empty one. *)
Definition new_Error (m : option string) : JsError :=
  match m with
  | Some s => Error s
  | None => Error ""
  end.

(** [a || b] on an optional string argument. *)
Definition or_else (a : option string) (b : string) : string :=
  match a with
  | Some s => if String.eqb s "" then b else s
  | None => b
  end.

Section Program.

Context `{Collaborators} `{Network}.

(** ** ./rpc *)

(** [fetchSequence(node, address)] of [./rpc]: one round trip. *)
Definition rpc_fetchSequence (node : JsValue) (address : string) : M Z :=
  fun w =>
    let r := fetchSequence_script (fetched w) in
    let w' := mkWorld (cache w) (heap w) (trace w ++ [EvFetch node address r])
                      (randoms w) (S (fetched w)) (submitted w) in
    lift r w'.

(** [submitTransaction(node, blob)] of [./rpc]: one round trip. *)
Definition submitTransaction (node : JsValue) (blob : string) : M JsValue :=
  fun w =>
    let r := submitTransaction_script (submitted w) in
    let w' := mkWorld (cache w) (heap w) (trace w ++ [EvSubmit node blob r])
                      (randoms w) (fetched w) (S (submitted w)) in
    lift r w'.

(** [Math.random()] *)
Definition Math_random_call : M Q :=
  fun w =>
    let r := Math_random (randoms w) in
    Returned r (mkWorld (cache w) (heap w) (trace w ++ [EvRandom r])
                        (S (randoms w)) (fetched w) (submitted w)).

(** ** ./sequence *)

(** Modelled from the spec: the module [./sequence] (object [swtcSequence])
    is not among the sources.  The cache maps an address to the next
    sequence number; [get] returns the cached value without fetching when
    there is one, and otherwise calls the fetch function with the node and
    the address, stores the result and returns it, letting a fetch failure
    through unchanged (spec 4.1, 4.2).  The completed call is recorded. *)
Definition swtcSequence_get (fetch : JsValue -> string -> M Z)
    (address : string) (node : JsValue) : M Z :=
  fun w =>
    match cache w !! address with
    | Some v => Returned v (log (EvGet address node (inr v)) w)
    | None =>
        match fetch node address w with
        | Returned v w' =>
            Returned v (log (EvGet address node (inr v))
                            (with_cache (<[address := v]> (cache w')) w'))
        | Threw e w' => Threw e (log (EvGet address node (inl e)) w')
        | OutOfFuel w' => OutOfFuel w'
        end
    end.

(** Modelled from the spec: [swtcSequence.rise] advances the cached value of
    the address by one (spec 4.4); without a cached value there is nothing
    to advance. *)
Definition swtcSequence_rise (address : string) : M unit :=
  fun w => Returned tt (with_cache (alter Z.succ address (cache w)) w).

(** Modelled from the spec: [swtcSequence.reset] clears the cached value of
    the address (spec 4.1 [clear]). *)
Definition swtcSequence_reset (address : string) : M unit :=
  fun w => Returned tt (with_cache (delete address (cache w)) w).

(** ** class Wallet *)

(** [Wallet.sign(tx, secret)], lines 74-92. *)
Definition Wallet_sign (tx : loc) (secret : string) : M SignResult :=
  wallet <- lift (wallet_new secret) ;;
  copyTx <- Object_assign_fresh tx ;;
  set_prop copyTx "SigningPubKey" (getPublicKey wallet) ;;;
  let prefix := transactionSig in
  o <- deref copyTx ;;
  blob <- lift (from_json o) ;;
  let hash :=
    if isEd25519 wallet
    then String.append (toUpperCase (toString16 prefix)) (to_hex blob)
    else blob_hash blob prefix in
  set_prop copyTx "TxnSignature" (signTx wallet hash) ;;;
  o' <- deref copyTx ;;
  sendBlob <- lift (from_json o') ;;
  ret (mkSignResult hash (to_hex sendBlob)).

(** ** class Transaction *)

(** [nodes] and [retry], set by the constructor (lines 100-104). *)
Record Transaction : Type := mkTransaction {
  nodes : list string;
  retry : number
}.

(** [Transaction.fetchSequence], lines 106-108. *)
Definition Transaction_fetchSequence (node : JsValue) (address : string) : M Z :=
  rpc_fetchSequence node address.

(** [this.nodes[i]] for the number [i]. *)
Definition nodes_at (this : Transaction) (i : Z) : JsValue :=
  if (i <? 0)%Z then JsUndefined
  else match nodes this !! Z.to_nat i with
       | Some n => JsString n
       | None => JsUndefined
       end.

(** [getNode], lines 129-132. *)
Definition getNode (this : Transaction) : M JsValue :=
  r <- Math_random_call ;;
  ret (nodes_at this (Qfloor (Qmult r (inject_Z (Z.of_nat (length (nodes this))))))).

(** [res?.result?.engine_result] *)
Definition engine_result_of (res : JsValue) : JsValue :=
  opt_member (opt_member res "result") "engine_result".

(** [res.result.tx_json.hash] *)
Definition tx_hash_of (res : JsValue) : JsError + JsValue :=
  match member res "result" with
  | inl e => inl e
  | inr result =>
      match member result "tx_json" with
      | inl e => inl e
      | inr tx_json => member tx_json "hash"
      end
  end.

(** The body of the [while] loop of [submit], lines 554-571: from the
    current [hash] and [retry] to their values at the end of the
    iteration. *)
Definition submit_iteration (secret : string) (tx : loc) (node : JsValue)
    (hash : JsValue) (retry : number) : M (JsValue * number) :=
  copyTx <- Object_assign_fresh tx ;;
  txo <- deref tx ;;
  sequence <- swtcSequence_get Transaction_fetchSequence (Account txo) node ;;
  set_prop copyTx "Sequence" (JsNumber sequence) ;;;
  signed <- Wallet_sign copyTx secret ;;
  res <- submitTransaction node (sr_blob signed) ;;
  let engine_result := engine_result_of res in
  if strict_eq_str engine_result "tesSUCCESS" then
    hash' <- lift (tx_hash_of res) ;;
    ret (hash', retry)
  else
    (if negb (strict_eq_str engine_result "terPRE_SEQ")
        && negb (strict_eq_str engine_result "tefPAST_SEQ")
     then throw (new_Error (JSON_stringify res))
     else ret tt) ;;;
    let retry' := js_sub retry js_one in
    txo' <- deref tx ;;
    swtcSequence_reset (Account txo') ;;;
    (if js_lt retry' js_zero
     then throw (new_Error (JSON_stringify res))
     else ret tt) ;;;
    ret (hash, retry').

(** [while (!hash) { ... } return hash], lines 552-573. *)
Fixpoint submit_loop (fuel : nat) (secret : string) (tx : loc) (node : JsValue)
    (hash : JsValue) (retry : number) : M JsValue :=
  if truthy hash then ret hash
  else
    match fuel with
    | O => fun w => OutOfFuel w
    | S fuel' =>
        st <- submit_iteration secret tx node hash retry ;;
        submit_loop fuel' secret tx node (fst st) (snd st)
    end.

(** [submit], lines 548-574. *)
Definition submit (fuel : nat) (this : Transaction) (secret : string) (tx : loc)
  : M JsValue :=
  let hash := JsUndefined in
  let retry := retry this in
  node <- getNode this ;;
  submit_loop fuel secret tx node hash retry.

(** ** The facade *)

(** A constructor of [./tx] returns a new transaction object, or throws. *)
Definition construct (r : JsError + TxJson) : M loc :=
  o <- lift r ;; alloc o.

(** [createOrder], lines 153-184. *)
Definition createOrder (fuel : nat) (this : Transaction)
    (address secret amount base counter sum : string) (type : ExchangeType)
    (platform : string) (issuer : option string) : M JsValue :=
  try_catch
    (tx <- construct (serializeCreateOrder address amount base counter sum type platform
               wallet_getCurrency wallet_getFee (or_else issuer wallet_getIssuer)) ;;
     hash <- submit fuel this secret tx ;;
     swtcSequence_rise address ;;;
     ret hash)
    (fun error => swtcSequence_reset address ;;; throw error).

(** [cancelOrder], lines 195-205. *)
Definition cancelOrder (fuel : nat) (this : Transaction)
    (address secret : string) (offerSequence : Z) : M JsValue :=
  try_catch
    (tx <- construct (serializeCancelOrder address offerSequence wallet_getFee) ;;
     hash <- submit fuel this secret tx ;;
     swtcSequence_rise address ;;;
     ret hash)
    (fun error => swtcSequence_reset address ;;; throw error).

(** [transfer], lines 220-247. *)
Definition transfer (fuel : nat) (this : Transaction)
    (address secret amount : string) (memo : MemoArg IMemo) (to token : string)
    (issuer : option string) : M JsValue :=
  try_catch
    (tx <- construct (serializePayment address amount to token memo wallet_getFee
               wallet_getCurrency (or_else issuer wallet_getIssuer)) ;;
     hash <- submit fuel this secret tx ;;
     swtcSequence_rise address ;;;
     ret hash)
    (fun error => swtcSequence_reset address ;;; throw error).

(** [setBrokerage], lines 262-288. *)
Definition setBrokerage (fuel : nat) (this : Transaction)
    (platformAccount platformSecret feeAccount : string) (rateNum rateDen : Z)
    (token : string) (issuer : option string) : M JsValue :=
  try_catch
    (tx <- construct (serializeBrokerage platformAccount feeAccount rateNum rateDen token
               (or_else issuer wallet_getIssuer) wallet_getFee) ;;
     hash <- submit fuel this platformSecret tx ;;
     swtcSequence_rise platformAccount ;;;
     ret hash)
    (fun error => swtcSequence_reset platformAccount ;;; throw error).

(** [addBlackList], lines 300-310. *)
Definition addBlackList (fuel : nat) (this : Transaction)
    (address secret account : string) (memo : MemoArg IMemo) : M JsValue :=
  try_catch
    (tx <- construct (serializeSetBlackList address account memo wallet_getFee) ;;
     hash <- submit fuel this secret tx ;;
     swtcSequence_rise address ;;;
     ret hash)
    (fun error => swtcSequence_reset address ;;; throw error).

(** [removeBlackList], lines 322-337. *)
Definition removeBlackList (fuel : nat) (this : Transaction)
    (address secret account : string) (memo : MemoArg IMemo) : M JsValue :=
  try_catch
    (tx <- construct (serializeRemoveBlackList address account memo wallet_getFee) ;;
     hash <- submit fuel this secret tx ;;
     swtcSequence_rise address ;;;
     ret hash)
    (fun error => swtcSequence_reset address ;;; throw error).

(** [setManageIssuer], lines 349-364. *)
Definition setManageIssuer (fuel : nat) (this : Transaction)
    (address secret account : string) (memo : MemoArg IMemo) : M JsValue :=
  try_catch
    (tx <- construct (serializeManageIssuer address account memo wallet_getFee) ;;
     hash <- submit fuel this secret tx ;;
     swtcSequence_rise address ;;;
     ret hash)
    (fun error => swtcSequence_reset address ;;; throw error).

(** [issueSet], lines 378-395. *)
Definition issueSet (fuel : nat) (this : Transaction)
    (address secret amount : string) (memo : MemoArg IMemo) (token : string)
    (issuer : JsValue) : M JsValue :=
  try_catch
    (tx <- construct (serializeIssueSet address amount token memo issuer wallet_getFee) ;;
     hash <- submit fuel this secret tx ;;
     swtcSequence_rise address ;;;
     ret hash)
    (fun error => swtcSequence_reset address ;;; throw error).

(** [setSignerList], lines 407-422. *)
Definition setSignerList (fuel : nat) (this : Transaction)
    (address secret : string) (signerQuorum : Z)
    (signerEntries : option (list ISignerEntry)) : M JsValue :=
  try_catch
    (tx <- construct (serializeSignerList address signerQuorum wallet_getFee signerEntries) ;;
     hash <- submit fuel this secret tx ;;
     swtcSequence_rise address ;;;
     ret hash)
    (fun error => swtcSequence_reset address ;;; throw error).

(** [setAccount], lines 424-434. *)
Definition setAccount (fuel : nat) (this : Transaction)
    (address secret : string) (disable : bool) : M JsValue :=
  try_catch
    (tx <- construct (serializeSetAccount address disable wallet_getFee) ;;
     hash <- submit fuel this secret tx ;;
     swtcSequence_rise address ;;;
     ret hash)
    (fun error => swtcSequence_reset address ;;; throw error).

(** [transfer721], lines 447-463. *)
Definition transfer721 (fuel : nat) (this : Transaction)
    (account secret receiver tokenId : string) (memo : option (MemoArg IMemo)) : M JsValue :=
  try_catch
    (tx <- construct (serialize721Payment account receiver tokenId wallet_getFee memo) ;;
     hash <- submit fuel this secret tx ;;
     swtcSequence_rise account ;;;
     ret hash)
    (fun error => swtcSequence_reset account ;;; throw error).

(** [delete721], lines 474-484. *)
Definition delete721 (fuel : nat) (this : Transaction)
    (account secret tokenId : string) : M JsValue :=
  try_catch
    (tx <- construct (serialize721Delete account tokenId wallet_getFee) ;;
     hash <- submit fuel this secret tx ;;
     swtcSequence_rise account ;;;
     ret hash)
    (fun error => swtcSequence_reset account ;;; throw error).

(** [setTokenIssue], lines 498-515. *)
Definition setTokenIssue (fuel : nat) (this : Transaction)
    (account secret publisher : string) (amount : Z) (token : string)
    (flag : TokenFlag) : M JsValue :=
  try_catch
    (tx <- construct (serializeTokenIssue account publisher amount token flag wallet_getFee) ;;
     hash <- submit fuel this secret tx ;;
     swtcSequence_rise account ;;;
     ret hash)
    (fun error => swtcSequence_reset account ;;; throw error).

(** [publish721], lines 529-546. *)
Definition publish721 (fuel : nat) (this : Transaction)
    (account secret receiver token tokenId : string)
    (tokenInfos : option (list TokenInfo)) : M JsValue :=
  try_catch
    (tx <- construct (serialize721Publish account receiver token tokenId wallet_getFee tokenInfos) ;;
     hash <- submit fuel this secret tx ;;
     swtcSequence_rise account ;;;
     ret hash)
    (fun error => swtcSequence_reset account ;;; throw error).

(** A call of one of the public operations with its arguments. *)
Inductive FacadeCall : Type :=
| Call_createOrder
    (address secret amount base counter sum : string) (type : ExchangeType)
    (platform : string) (issuer : option string)
| Call_cancelOrder
    (address secret : string) (offerSequence : Z)
| Call_transfer
    (address secret amount : string) (memo : MemoArg IMemo) (to token : string)
    (issuer : option string)
| Call_setBrokerage
    (platformAccount platformSecret feeAccount : string) (rateNum rateDen : Z)
    (token : string) (issuer : option string)
| Call_addBlackList
    (address secret account : string) (memo : MemoArg IMemo)
| Call_removeBlackList
    (address secret account : string) (memo : MemoArg IMemo)
| Call_setManageIssuer
    (address secret account : string) (memo : MemoArg IMemo)
| Call_issueSet
    (address secret amount : string) (memo : MemoArg IMemo) (token : string)
    (issuer : JsValue)
| Call_setSignerList
    (address secret : string) (signerQuorum : Z)
    (signerEntries : option (list ISignerEntry))
| Call_setAccount
    (address secret : string) (disable : bool)
| Call_transfer721
    (account secret receiver tokenId : string) (memo : option (MemoArg IMemo))
| Call_delete721
    (account secret tokenId : string)
| Call_setTokenIssue
    (account secret publisher : string) (amount : Z) (token : string)
    (flag : TokenFlag)
| Call_publish721
    (account secret receiver token tokenId : string)
    (tokenInfos : option (list TokenInfo)).

Definition run (fuel : nat) (this : Transaction) (c : FacadeCall) : M JsValue :=
  match c with
  | Call_createOrder address secret amount base counter sum type platform issuer =>
      createOrder fuel this address secret amount base counter sum type platform issuer
  | Call_cancelOrder address secret offerSequence =>
      cancelOrder fuel this address secret offerSequence
  | Call_transfer address secret amount memo to token issuer =>
      transfer fuel this address secret amount memo to token issuer
  | Call_setBrokerage platformAccount platformSecret feeAccount rateNum rateDen token issuer =>
      setBrokerage fuel this platformAccount platformSecret feeAccount rateNum rateDen token issuer
  | Call_addBlackList address secret account memo =>
      addBlackList fuel this address secret account memo
  | Call_removeBlackList address secret account memo =>
      removeBlackList fuel this address secret account memo
  | Call_setManageIssuer address secret account memo =>
      setManageIssuer fuel this address secret account memo
  | Call_issueSet address secret amount memo token issuer =>
      issueSet fuel this address secret amount memo token issuer
  | Call_setSignerList address secret signerQuorum signerEntries =>
      setSignerList fuel this address secret signerQuorum signerEntries
  | Call_setAccount address secret disable =>
      setAccount fuel this address secret disable
  | Call_transfer721 account secret receiver tokenId memo =>
      transfer721 fuel this account secret receiver tokenId memo
  | Call_delete721 account secret tokenId =>
      delete721 fuel this account secret tokenId
  | Call_setTokenIssue account secret publisher amount token flag =>
      setTokenIssue fuel this account secret publisher amount token flag
  | Call_publish721 account secret receiver token tokenId tokenInfos =>
      publish721 fuel this account secret receiver token tokenId tokenInfos
  end.

(** The account whose cached sequence the operation keeps, the secret it
    signs with and the transaction description it builds. *)
Definition acting_account (c : FacadeCall) : string :=
  match c with
  | Call_createOrder address _ _ _ _ _ _ _ _ => address
  | Call_cancelOrder address _ _ => address
  | Call_transfer address _ _ _ _ _ _ => address
  | Call_setBrokerage platformAccount _ _ _ _ _ _ => platformAccount
  | Call_addBlackList address _ _ _ => address
  | Call_removeBlackList address _ _ _ => address
  | Call_setManageIssuer address _ _ _ => address
  | Call_issueSet address _ _ _ _ _ => address
  | Call_setSignerList address _ _ _ => address
  | Call_setAccount address _ _ => address
  | Call_transfer721 account _ _ _ _ => account
  | Call_delete721 account _ _ => account
  | Call_setTokenIssue account _ _ _ _ _ => account
  | Call_publish721 account _ _ _ _ _ => account
  end.

Definition signing_secret (c : FacadeCall) : string :=
  match c with
  | Call_createOrder _ secret _ _ _ _ _ _ _ => secret
  | Call_cancelOrder _ secret _ => secret
  | Call_transfer _ secret _ _ _ _ _ => secret
  | Call_setBrokerage _ platformSecret _ _ _ _ _ => platformSecret
  | Call_addBlackList _ secret _ _ => secret
  | Call_removeBlackList _ secret _ _ => secret
  | Call_setManageIssuer _ secret _ _ => secret
  | Call_issueSet _ secret _ _ _ _ => secret
  | Call_setSignerList _ secret _ _ => secret
  | Call_setAccount _ secret _ => secret
  | Call_transfer721 _ secret _ _ _ => secret
  | Call_delete721 _ secret _ => secret
  | Call_setTokenIssue _ secret _ _ _ _ => secret
  | Call_publish721 _ secret _ _ _ _ => secret
  end.

Definition built_tx (c : FacadeCall) : JsError + TxJson :=
  match c with
  | Call_createOrder address _ amount base counter sum type platform issuer =>
      serializeCreateOrder address amount base counter sum type platform wallet_getCurrency wallet_getFee (or_else issuer wallet_getIssuer)
  | Call_cancelOrder address _ offerSequence =>
      serializeCancelOrder address offerSequence wallet_getFee
  | Call_transfer address _ amount memo to token issuer =>
      serializePayment address amount to token memo wallet_getFee wallet_getCurrency (or_else issuer wallet_getIssuer)
  | Call_setBrokerage platformAccount _ feeAccount rateNum rateDen token issuer =>
      serializeBrokerage platformAccount feeAccount rateNum rateDen token (or_else issuer wallet_getIssuer) wallet_getFee
  | Call_addBlackList address _ account memo =>
      serializeSetBlackList address account memo wallet_getFee
  | Call_removeBlackList address _ account memo =>
      serializeRemoveBlackList address account memo wallet_getFee
  | Call_setManageIssuer address _ account memo =>
      serializeManageIssuer address account memo wallet_getFee
  | Call_issueSet address _ amount memo token issuer =>
      serializeIssueSet address amount token memo issuer wallet_getFee
  | Call_setSignerList address _ signerQuorum signerEntries =>
      serializeSignerList address signerQuorum wallet_getFee signerEntries
  | Call_setAccount address _ disable =>
      serializeSetAccount address disable wallet_getFee
  | Call_transfer721 account _ receiver tokenId memo =>
      serialize721Payment account receiver tokenId wallet_getFee memo
  | Call_delete721 account _ tokenId =>
      serialize721Delete account tokenId wallet_getFee
  | Call_setTokenIssue account _ publisher amount token flag =>
      serializeTokenIssue account publisher amount token flag wallet_getFee
  | Call_publish721 account _ receiver token tokenId tokenInfos =>
      serialize721Publish account receiver token tokenId wallet_getFee tokenInfos
  end.

End Program.

(** ** The static helpers of class Transaction *)

Section Statics.

Context `{Collaborators} `{Network}.

(** [Transaction.sendRawTransaction], lines 114-122, on [{ blob, url }]. *)
Definition sendRawTransaction (url : string) (blob : string) : M JsValue :=
  res <- submitTransaction (JsString url) blob ;;
  result <- lift (member res "result") ;;
  engine_result <- lift (member result "engine_result") ;;
  if negb (strict_eq_str engine_result "tesSUCCESS")
  then throw (new_Error (JSON_stringify res))
  else
    hash <- lift (tx_hash_of res) ;;
    ret hash.

(** [Transaction.isValidated], lines 124-127: [a && b] is [a] when [a] is
    falsy, here the boolean [false], and [b] otherwise. *)
Definition isValidated (tx : JsValue) : JsValue :=
  let result := opt_member tx "result" in
  if strict_eq_str (opt_member result "status") "success"
  then opt_member result "validated"
  else JsBool false.

(** [Transaction.isSuccess], lines 134-136. *)
Definition isSuccess (tx : JsValue) : bool :=
  strict_eq_str (opt_member (opt_member tx "result") "engine_result") "tesSUCCESS".

End Statics.

(** ** One iteration as a straight-line function *)

Section Model.

Context `{Collaborators} `{Network}.

(** The answer of the resolver in a world: the cached value, or else the
    next entry of the fetch script. *)
Definition resolved (a : string) (w : World) : JsError + Z :=
  match cache w !! a with
  | Some v => inr v
  | None => fetchSequence_script (fetched w)
  end.

(** The world a call of the resolver leaves. *)
Definition after_get (a : string) (node : JsValue) (w : World) : World :=
  match cache w !! a with
  | Some v => log (EvGet a node (inr v)) w
  | None =>
      let r := fetchSequence_script (fetched w) in
      let w' := mkWorld (cache w) (heap w) (trace w ++ [EvFetch node a r])
                        (randoms w) (S (fetched w)) (submitted w) in
      match r with
      | inr v => log (EvGet a node r) (with_cache (<[a := v]> (cache w')) w')
      | inl _ => log (EvGet a node r) w'
      end
  end.

(** The result of [Wallet.sign] on an object with the content [o], and the
    objects it allocates on the way. *)
Definition signature_for (o : TxJson) (secret : string) : JsError + SignResult :=
  match wallet_new secret with
  | inl e => inl e
  | inr wallet =>
      let o1 := with_prop "SigningPubKey" (getPublicKey wallet) o in
      match from_json o1 with
      | inl e => inl e
      | inr blob =>
          let hash :=
            if isEd25519 wallet
            then String.append (toUpperCase (toString16 transactionSig)) (to_hex blob)
            else blob_hash blob transactionSig in
          match from_json (with_prop "TxnSignature" (signTx wallet hash) o1) with
          | inl e => inl e
          | inr sendBlob => inr (mkSignResult hash (to_hex sendBlob))
          end
      end
  end.

Definition sign_allocs (o : TxJson) (secret : string) : list TxJson :=
  match wallet_new secret with
  | inl _ => []
  | inr wallet =>
      let o1 := with_prop "SigningPubKey" (getPublicKey wallet) o in
      match from_json o1 with
      | inl _ => [o1]
      | inr blob =>
          let hash :=
            if isEd25519 wallet
            then String.append (toUpperCase (toString16 transactionSig)) (to_hex blob)
            else blob_hash blob transactionSig in
          [with_prop "TxnSignature" (signTx wallet hash) o1]
      end
  end.

Definition is_success (res : JsValue) : bool :=
  strict_eq_str (engine_result_of res) "tesSUCCESS".

Definition is_conflict (res : JsValue) : bool :=
  strict_eq_str (engine_result_of res) "terPRE_SEQ"
  || strict_eq_str (engine_result_of res) "tefPAST_SEQ".

(** The sequence number stamped on a copy. *)
Definition stamp (s : Z) (o : TxJson) : TxJson :=
  with_prop "Sequence" (JsNumber s) o.

(** The world when the signed blob has been submitted and answered. *)
Definition after_submit (node : JsValue) (blob : string) (w : World) : World :=
  mkWorld (cache w) (heap w)
          (trace w ++ [EvSubmit node blob (submitTransaction_script (submitted w))])
          (randoms w) (fetched w) (S (submitted w)).

(** The node [getNode] picks in a world, and the world it leaves. *)
Definition chosen_node (this : Transaction) (w : World) : JsValue :=
  nodes_at this
    (Qfloor (Qmult (Math_random (randoms w))
                   (inject_Z (Z.of_nat (length (nodes this)))))).

Definition after_random (w : World) : World :=
  mkWorld (cache w) (heap w) (trace w ++ [EvRandom (Math_random (randoms w))])
          (S (randoms w)) (fetched w) (submitted w).

(** What the loop does with the answer [r] of the node, lines 559-571. *)
Definition classify_model (a : string) (hash : JsValue) (retry : number)
    (r : JsError + JsValue) (w : World) : Outcome (JsValue * number) :=
  match r with
  | inl e => Threw e w
  | inr res =>
      if is_success res then
        match tx_hash_of res with
        | inl e => Threw e w
        | inr h => Returned (h, retry) w
        end
      else if is_conflict res then
        let w' := with_cache (delete a (cache w)) w in
        if js_lt (js_sub retry js_one) js_zero
        then Threw (new_Error (JSON_stringify res)) w'
        else Returned (hash, js_sub retry js_one) w'
      else Threw (new_Error (JSON_stringify res)) w
  end.

(** An iteration of the loop on a transaction object with the content [o],
    as a straight-line function of the world. *)
Definition iteration_model (o : TxJson) (secret : string) (node : JsValue)
    (hash : JsValue) (retry : number) (w : World) : Outcome (JsValue * number) :=
  let a := Account o in
  let w1 := after_get a node (with_heap (heap w ++ [o]) w) in
  match resolved a w with
  | inl e => Threw e w1
  | inr s =>
      let w2 := with_heap (heap w ++ [stamp s o] ++ sign_allocs (stamp s o) secret) w1 in
      match signature_for (stamp s o) secret with
      | inl e => Threw e w2
      | inr sr =>
          classify_model a hash retry (submitTransaction_script (submitted w))
                         (after_submit node (sr_blob sr) w2)
      end
  end.

(** The calls an iteration completes, in order: the resolver's (with its
    fetch when nothing is cached), then the submission when the copy could
    be signed. *)
Definition get_events (a : string) (node : JsValue) (w : World) : list Event :=
  match cache w !! a with
  | Some v => [EvGet a node (inr v)]
  | None =>
      [EvFetch node a (fetchSequence_script (fetched w));
       EvGet a node (fetchSequence_script (fetched w))]
  end.

Definition iteration_events (o : TxJson) (secret : string) (node : JsValue)
    (w : World) : list Event :=
  get_events (Account o) node w ++
  match resolved (Account o) w with
  | inl _ => []
  | inr s =>
      match signature_for (stamp s o) secret with
      | inl _ => []
      | inr sr => [EvSubmit node (sr_blob sr) (submitTransaction_script (submitted w))]
      end
  end.

(** How the world after an iteration relates to the world before it. *)
Definition iteration_post (o : TxJson) (secret : string) (node : JsValue)
    (w w' : World) : Prop :=
  (exists h', heap w' = heap w ++ h')
  /\ trace w' = trace w ++ iteration_events o secret node w
  /\ randoms w' = randoms w
  /\ (fetched w <= fetched w')%nat
  /\ (cache w !! Account o = None -> fetched w' = S (fetched w))
  /\ (submitted w <= submitted w' <= S (submitted w))%nat.

(** A call that went to [node]; [Math.random] is not one. *)
Definition uses_node (node : JsValue) (ev : Event) : Prop :=
  match ev with
  | EvRandom _ => False
  | EvFetch n _ _ | EvGet _ n _ | EvSubmit n _ _ => n = node
  end.

(** Every blob submitted in [evs] is the one [Wallet.sign] gives for the
    content [o] stamped with the sequence resolved just before it, [last]
    being the sequence resolved and not yet used. *)
Fixpoint freshly_signed (o : TxJson) (secret : string) (last : option Z)
    (evs : list Event) : bool :=
  match evs with
  | [] => true
  | EvGet _ _ (inr s) :: rest => freshly_signed o secret (Some s) rest
  | EvGet _ _ (inl _) :: rest => freshly_signed o secret None rest
  | EvSubmit _ blob _ :: rest =>
      match last with
      | Some s =>
          match signature_for (stamp s o) secret with
          | inr sr => String.eqb blob (sr_blob sr) && freshly_signed o secret None rest
          | inl _ => false
          end
      | None => false
      end
  | _ :: rest => freshly_signed o secret last rest
  end.

(** The resolver's calls in a trace. *)
Definition is_get (ev : Event) : bool :=
  match ev with
  | EvGet _ _ _ => true
  | _ => false
  end.

Definition count_gets (evs : list Event) : nat := length (filter is_get evs).

End Model.

(** ** A small chain for examples *)

Module Demo.

(** A node's answer with the given engine result and hash. *)
Definition reply (code : string) (h : JsValue) : JsValue :=
  JsObject [("result",
             JsObject [("engine_result", JsString code);
                       ("tx_json", JsObject [("hash", h)])])].

(** Collaborators that never fail once the secret is not empty; the blob of
    a transaction shows its account and sequence. *)
Definition chain : Collaborators := {|
  KeyPair := string;
  Blob := TxJson;
  IMemo := string;
  ISignerEntry := string;
  TokenInfo := string;
  TokenFlag := Z;
  wallet_new := fun s => if String.eqb s "" then inl (Error "invalid secret") else inr s;
  getPublicKey := fun k => JsString (String.append "pub:" k);
  isEd25519 := fun _ => false;
  signTx := fun k h => JsString (String.append k h);
  from_json := fun o => inr o;
  to_hex := fun o =>
    match own_prop "Sequence" (fields o) with
    | JsNumber n => String.append (Account o) (String.append "#" (pretty n))
    | _ => Account o
    end;
  blob_hash := fun o _ => Account o;
  transactionSig := 1398036480;
  toString16 := fun _ => "53545800";
  toUpperCase := fun s => s;
  JSON_stringify_defined := fun v =>
    match engine_result_of v with
    | JsString s => s
    | _ => "null"
    end;
  wallet_getFee := 10;
  wallet_getCurrency := "SWT";
  wallet_getIssuer := "jGa9J9TkqtBcUoHe2zqhVFFbgUVED6o9or";
  serializeCreateOrder := fun a _ _ _ _ _ _ _ _ _ =>
    inr (mkTx a [("TransactionType", JsString "OfferCreate")]);
  serializeCancelOrder := fun a _ _ =>
    inr (mkTx a [("TransactionType", JsString "OfferCancel")]);
  serializePayment := fun a _ _ _ _ _ _ _ =>
    inr (mkTx a [("TransactionType", JsString "Payment")]);
  serializeBrokerage := fun a _ _ _ _ _ _ =>
    inr (mkTx a [("TransactionType", JsString "Brokerage")]);
  serializeSetBlackList := fun a _ _ _ =>
    inr (mkTx a [("TransactionType", JsString "SetBlackList")]);
  serializeRemoveBlackList := fun a _ _ _ =>
    inr (mkTx a [("TransactionType", JsString "RemoveBlackList")]);
  serializeManageIssuer := fun a _ _ _ =>
    inr (mkTx a [("TransactionType", JsString "ManageIssuer")]);
  serializeIssueSet := fun a _ _ _ _ _ =>
    inr (mkTx a [("TransactionType", JsString "IssueSet")]);
  serializeSignerList := fun a _ _ _ =>
    inr (mkTx a [("TransactionType", JsString "SignerListSet")]);
  serializeSetAccount := fun a _ _ =>
    inr (mkTx a [("TransactionType", JsString "AccountSet")]);
  serialize721Payment := fun a _ _ _ _ =>
    inr (mkTx a [("TransactionType", JsString "TransferToken")]);
  serialize721Delete := fun a _ _ =>
    inr (mkTx a [("TransactionType", JsString "TokenDel")]);
  serializeTokenIssue := fun a _ _ _ _ _ =>
    inr (mkTx a [("TransactionType", JsString "TokenIssue")]);
  serialize721Publish := fun a _ _ _ _ _ =>
    inr (mkTx a [("TransactionType", JsString "TransferToken")])
|}.

(** A network whose k-th fetch answers [5 + k] and whose submissions are
    answered by the list [l], then by [d] for ever. *)
Definition scripted (l : list JsValue) (d : JsValue) : Network := {|
  Math_random := fun _ => 0%Q;
  fetchSequence_script := fun k => inr (5 + Z.of_nat k);
  submitTransaction_script := fun k => inr (nth k l d)
|}.

Definition payment : TxJson := mkTx "jA" [("Fee", JsNumber 10)].

(** A fresh process holding one transaction object, at location 0. *)
Definition start : World := mkWorld ∅ [payment] [] 0 0 0.

(** A fresh process. *)
Definition empty_world : World := mkWorld ∅ [] [] 0 0 0.

(** A facade on two nodes with the integer [budget] as its retry budget. *)
Definition facade (budget : Z) : Transaction :=
  mkTransaction ["ws://n1"; "ws://n2"] (number_of_Z budget).

Definition order : @FacadeCall chain :=
  @Call_createOrder chain "jA" "secret" "1" "jjcc" "swt" "2" buy "jP" None.

Definition node1 : JsValue := JsString "ws://n1".

(** Every submission is answered tefPAST_SEQ. *)
Definition all_past_seq : Network := scripted [] (reply "tefPAST_SEQ" JsNull).

(** Every submission is accepted, with the hash ABCD. *)
Definition accepted : Network := scripted [] (reply "tesSUCCESS" (JsString "ABCD")).

(** temBAD_FEE first, then acceptance. *)
Definition bad_fee : Network :=
  scripted [reply "temBAD_FEE" JsNull] (reply "tesSUCCESS" (JsString "ABCD")).

(** The node answers [null] first. *)
Definition null_answer : Network :=
  scripted [JsNull] (reply "tesSUCCESS" (JsString "ABCD")).

(** The node answers [undefined] first. *)
Definition undefined_answer : Network :=
  scripted [JsUndefined] (reply "tesSUCCESS" (JsString "ABCD")).

(** terPRE_SEQ first, then [null]. *)
Definition conflict_then_null : Network :=
  scripted [reply "terPRE_SEQ" JsNull; JsNull] (reply "tesSUCCESS" (JsString "ABCD")).

(** terPRE_SEQ first, then acceptance. *)
Definition retry_then_success : Network :=
  scripted [reply "terPRE_SEQ" JsNull] (reply "tesSUCCESS" (JsString "ABCD")).

(** Every submission is accepted, but the answers carry an empty hash. *)
Definition hashless : Network := scripted [] (reply "tesSUCCESS" (JsString "")).

(** An acceptance with an empty hash, then acceptances with the hash H2. *)
Definition empty_then_hash : Network :=
  scripted [reply "tesSUCCESS" (JsString "")] (reply "tesSUCCESS" (JsString "H2")).


(** The node cannot be reached: every RPC is rejected. *)
Definition offline : Network := {|
  Math_random := fun _ => 0%Q;
  fetchSequence_script := fun _ => inl (Error "timeout");
  submitTransaction_script := fun _ => inl (Error "timeout")
|}.

(** Fetches are answered, submissions are rejected. *)
Definition submit_offline : Network := {|
  Math_random := fun _ => 0%Q;
  fetchSequence_script := fun k => inr (5 + Z.of_nat k)%Z;
  submitTransaction_script := fun _ => inl (Error "timeout")
|}.

(** An acceptance whose [result] has no [tx_json]. *)
Definition bare_success : JsValue :=
  JsObject [("result", JsObject [("engine_result", JsString "tesSUCCESS")])].

Definition accepted_without_tx_json : Network :=
  scripted [] bare_success.

(** Two conflicts, then acceptance. *)
Definition two_conflicts_then_success : Network :=
  scripted [reply "terPRE_SEQ" JsNull; reply "tefPAST_SEQ" JsNull]
           (reply "tesSUCCESS" (JsString "ABCD")).

(** A process that holds the transaction object and the cached sequences 7
    of jA and 9 of jB. *)
Definition warm : World :=
  mkWorld (<["jA" := 7%Z]> (<["jB" := 9%Z]> ∅)) [payment] [] 0 0 0.


End Demo.


(** * Properties *)

(** ** Binary64 arithmetic on the retry budget *)

(** [retry - 1] is exact on the integers from 1 to [2 ^ 53]; a budget
    [<= 0] becomes negative and a budget [>= 1] does not.  The proofs follow
    the rounding of [SpecFloat]: alignment of the mantissas, shift to 53
    bits, round to nearest even. *)

(** A positive [p] has [digits2_pos p] bits. *)
Lemma digits_bounds (p : positive) :
  2 ^ (Zpos (digits2_pos p) - 1) <= Zpos p < 2 ^ Zpos (digits2_pos p).
Proof.
  induction p as [p IH|p IH|]; simpl digits2_pos.
  - rewrite Pos2Z.inj_succ.
    replace (Z.succ (Zpos (digits2_pos p)) - 1) with (Z.succ (Zpos (digits2_pos p) - 1)) by lia.
    rewrite !Z.pow_succ_r by lia.
    destruct IH as [IH1 IH2]. revert IH1 IH2.
    generalize (2 ^ (Zpos (digits2_pos p) - 1)) (2 ^ Zpos (digits2_pos p)). lia.
  - rewrite Pos2Z.inj_succ.
    replace (Z.succ (Zpos (digits2_pos p)) - 1) with (Z.succ (Zpos (digits2_pos p) - 1)) by lia.
    rewrite !Z.pow_succ_r by lia.
    destruct IH as [IH1 IH2]. revert IH1 IH2.
    generalize (2 ^ (Zpos (digits2_pos p) - 1)) (2 ^ Zpos (digits2_pos p)). lia.
  - simpl. lia.
Qed.

Lemma digits_unique (p : positive) (d : Z) :
  2 ^ (d - 1) <= Zpos p < 2 ^ d -> Zpos (digits2_pos p) = d.
Proof.
  intros [Hl Hu]. pose proof (digits_bounds p) as [Bl Bu].
  assert (0 < d).
  { destruct (Z.ltb_spec 0 d); [assumption|].
    assert (2 ^ d <= 2 ^ 0) by (apply Z.pow_le_mono_r; lia). simpl in *. lia. }
  assert (d - 1 < Zpos (digits2_pos p)).
  { apply (Z.pow_lt_mono_r_iff 2); lia. }
  assert (Zpos (digits2_pos p) - 1 < d).
  { apply (Z.pow_lt_mono_r_iff 2); lia. }
  lia.
Qed.

Lemma digits_mul_pow2 (m c : positive) (j : Z) :
  0 <= j -> Zpos m = Zpos c * 2 ^ j ->
  Zpos (digits2_pos m) = Zpos (digits2_pos c) + j.
Proof.
  intros Hj E. apply digits_unique. rewrite E.
  pose proof (digits_bounds c) as [Bl Bu].
  replace (Zpos (digits2_pos c) + j - 1) with ((Zpos (digits2_pos c) - 1) + j) by lia.
  rewrite !Z.pow_add_r by lia.
  assert (0 < 2 ^ j) by (apply Z.pow_pos_nonneg; lia).
  split; [apply Z.mul_le_mono_nonneg_r; lia | apply Z.mul_lt_mono_pos_r; lia].
Qed.

Lemma Zpos_iter_xO (m k : positive) :
  Zpos (Pos.iter xO m k) = Zpos m * 2 ^ Zpos k.
Proof.
  rewrite (Pos.iter_swap_gen _ _ Zpos xO (Z.mul 2)) by reflexivity.
  change (Pos.iter (Z.mul 2) (Zpos m) k) with (Z.shiftl (Zpos m) (Zpos k)).
  apply Z.shiftl_mul_pow2. lia.
Qed.

Lemma iter_pos_iter {A} (f : A -> A) (p : positive) (x : A) :
  SpecFloat.iter_pos f p x = Pos.iter f x p.
Proof.
  revert x. induction p as [p IH|p IH|]; intros x; simpl.
  - rewrite !IH, Pos.iter_swap, Pos.iter_swap. reflexivity.
  - rewrite !IH. reflexivity.
  - reflexivity.
Qed.

Lemma shr_1_m (a : shr_record) :
  0 <= shr_m a -> shr_m (shr_1 a) = shr_m a / 2.
Proof.
  destruct a as [m r s]. cbn [shr_m]. intros Hm.
  destruct m as [|[p|p|]|p]; cbn [shr_1 shr_m]; try reflexivity; try lia.
  - apply Z.div_unique with 1; lia.
  - apply Z.div_unique with 0; lia.
Qed.

Lemma shr_m_iter (a : shr_record) (k : positive) :
  0 <= shr_m a -> shr_m (SpecFloat.iter_pos shr_1 k a) = shr_m a / 2 ^ Zpos k.
Proof.
  intros Hm. rewrite iter_pos_iter.
  apply (Pos.iter_ind _ shr_1 a (fun p a' => shr_m a' = shr_m a / 2 ^ Zpos p)).
  - rewrite shr_1_m by exact Hm. reflexivity.
  - intros p a' E. rewrite shr_1_m.
    + rewrite E, Pos2Z.inj_succ, Z.pow_succ_r by lia.
      assert (0 < 2 ^ Zpos p) by (apply Z.pow_pos_nonneg; lia).
      rewrite Z.div_div by lia.
      f_equal. lia.
    + rewrite E. apply Z.div_pos; [lia | apply Z.pow_pos_nonneg; lia].
Qed.

Lemma shr_1_even (x : Z) :
  0 <= x ->
  shr_1 (Build_shr_record (2 * x) false false) = Build_shr_record x false false.
Proof. intros _. destruct x; reflexivity. Qed.

Lemma shr_iter_exact (c : Z) (K k : positive) :
  0 <= c -> (k <= K)%positive ->
  SpecFloat.iter_pos shr_1 k (Build_shr_record (c * 2 ^ Zpos K) false false)
  = Build_shr_record (c * 2 ^ (Zpos K - Zpos k)) false false.
Proof.
  intros Hc. rewrite iter_pos_iter.
  apply (Pos.iter_ind _ shr_1 (Build_shr_record (c * 2 ^ Zpos K) false false)
           (fun p a' => (p <= K)%positive ->
              a' = Build_shr_record (c * 2 ^ (Zpos K - Zpos p)) false false)).
  - intros _.
    replace (c * 2 ^ Zpos K) with (2 * (c * 2 ^ (Zpos K - 1))).
    + apply shr_1_even. apply Z.mul_nonneg_nonneg; [lia | apply Z.pow_nonneg; lia].
    + replace (Zpos K) with (Z.succ (Zpos K - 1)) at 2 by lia.
      rewrite Z.pow_succ_r by lia. lia.
  - intros p a' IH Hle.
    rewrite IH by lia.
    replace (c * 2 ^ (Zpos K - Zpos p))
      with (2 * (c * 2 ^ (Zpos K - Zpos (Pos.succ p)))).
    + apply shr_1_even. apply Z.mul_nonneg_nonneg; [lia | apply Z.pow_nonneg; lia].
    + replace (Zpos K - Zpos p) with (Z.succ (Zpos K - Zpos (Pos.succ p))) by lia.
      rewrite Z.pow_succ_r by lia. lia.
Qed.

Lemma digits_scaled (m c : positive) (a b : Z) :
  0 <= a -> 0 <= b -> Zpos m * 2 ^ a = Zpos c * 2 ^ b ->
  Zpos (digits2_pos m) + a = Zpos (digits2_pos c) + b.
Proof.
  intros Ha Hb E.
  assert (Hp : 0 < Zpos m * 2 ^ a).
  { apply Z.mul_pos_pos; [lia | apply Z.pow_pos_nonneg; lia]. }
  destruct (Zpos m * 2 ^ a) as [|x|x] eqn:Ex; try lia.
  rewrite <- (digits_mul_pow2 x m a Ha) by (rewrite Z.mul_comm; lia).
  rewrite <- (digits_mul_pow2 x c b Hb) by lia.
  reflexivity.
Qed.

Lemma shr_fexp_exact (m cz : positive) (e t : Z) :
  0 <= t -> Zpos m = Zpos cz * 2 ^ t ->
  Zpos (digits2_pos cz) = 53 -> -1074 <= e + t ->
  shr_fexp 53 1024 (Zpos m) e loc_Exact
  = (Build_shr_record (Zpos cz) false false, e + t).
Proof.
  intros Ht E Hd He.
  unfold shr_fexp. cbn [Zdigits2 shr_record_of_loc].
  rewrite (digits_mul_pow2 m cz t Ht E), Hd.
  replace (fexp 53 1024 (53 + t + e) - e) with t by (unfold fexp, emin; lia).
  destruct t as [|k|k]; [| |lia]; cbn [shr].
  - rewrite E, Z.pow_0_r, Z.mul_1_r, Z.add_0_r. reflexivity.
  - rewrite E, shr_iter_exact by lia.
    rewrite Z.sub_diag, Z.pow_0_r, Z.mul_1_r. reflexivity.
Qed.

Lemma binary_round_aux_exact (s : bool) (m cz : positive) (e t : Z) :
  0 <= t -> Zpos m = Zpos cz * 2 ^ t ->
  Zpos (digits2_pos cz) = 53 -> -1074 <= e + t <= 971 ->
  binary_round_aux 53 1024 s (Zpos m) e loc_Exact = S754_finite s cz (e + t).
Proof.
  intros Ht E Hd He.
  unfold binary_round_aux.
  rewrite (shr_fexp_exact m cz e t) by (assumption || lia).
  cbn [shr_m loc_of_shr_record round_nearest_even].
  rewrite (shr_fexp_exact cz cz (e + t) 0)
    by (try assumption; try lia; rewrite Z.pow_0_r; lia).
  cbn [shr_m]. rewrite Z.add_0_r.
  replace (e + t <=? 1024 - 53)%Z with true by (symmetry; apply Z.leb_le; lia).
  reflexivity.
Qed.

Lemma binary_round_exact (s : bool) (m cz : positive) (e a b : Z) :
  0 <= a -> 0 <= b -> Zpos m * 2 ^ a = Zpos cz * 2 ^ b ->
  Zpos (digits2_pos cz) = 53 -> -1074 <= e + b - a <= 971 ->
  binary_round 53 1024 s m e = S754_finite s cz (e + b - a).
Proof.
  intros Ha Hb E Hd He.
  pose proof (digits_scaled m cz a b Ha Hb E) as Hdig.
  unfold binary_round.
  replace (fexp 53 1024 (Zpos (digits2_pos m) + e)) with (e + b - a)
    by (unfold fexp, emin; lia).
  unfold shl_align.
  replace (e + b - a - e) with (b - a) by lia.
  assert (P2a : 0 < 2 ^ a) by (apply Z.pow_pos_nonneg; lia).
  assert (P2b : 0 < 2 ^ b) by (apply Z.pow_pos_nonneg; lia).
  destruct (b - a) as [|d|d] eqn:Hd'.
  - replace (e + b - a) with (e + 0) by lia.
    apply binary_round_aux_exact; try assumption; try lia.
    rewrite Z.pow_0_r, Z.mul_1_r.
    replace b with a in E by lia.
    apply (Z.mul_cancel_r _ _ (2 ^ a)); lia.
  - replace (e + b - a) with (e + Zpos d) by lia.
    apply binary_round_aux_exact; try assumption; try lia.
    replace b with (Zpos d + a) in E by lia.
    rewrite Z.pow_add_r, Z.mul_assoc in E by lia.
    apply (Z.mul_cancel_r _ _ (2 ^ a)); lia.
  - replace (e + b - a) with (e + b - a + 0) at 2 by lia.
    apply binary_round_aux_exact; try assumption; try lia.
    rewrite Z.pow_0_r, Z.mul_1_r, Zpos_iter_xO.
    replace a with (Zpos d + b) in E by lia.
    rewrite Z.pow_add_r, Z.mul_assoc in E by lia.
    apply (Z.mul_cancel_r _ _ (2 ^ b)); lia.
Qed.

Lemma mantissa_of_spec (q : positive) :
  Zpos (digits2_pos q) <= 53 ->
  Zpos (mantissa_of q) = Zpos q * 2 ^ (53 - Zpos (digits2_pos q))
  /\ Zpos (digits2_pos (mantissa_of q)) = 53.
Proof.
  intros Hq.
  assert (E : Zpos (mantissa_of q) = Zpos q * 2 ^ (53 - Zpos (digits2_pos q))).
  { unfold mantissa_of. rewrite Z2Pos.id; [reflexivity|].
    apply Z.mul_pos_pos; [lia | apply Z.pow_pos_nonneg; lia]. }
  split; [exact E|].
  rewrite (digits_mul_pow2 (mantissa_of q) q (53 - Zpos (digits2_pos q)))
    by first [exact E | lia].
  lia.
Qed.

Lemma binary_round_integer (s : bool) (m q : positive) (k : Z) :
  0 <= k -> Zpos m = Zpos q * 2 ^ k -> Zpos (digits2_pos q) <= 53 ->
  binary_round 53 1024 s m (- k)
  = S754_finite s (mantissa_of q) (Zpos (digits2_pos q) - 53).
Proof.
  intros Hk E Hq.
  destruct (mantissa_of_spec q Hq) as [Em Hd].
  replace (Zpos (digits2_pos q) - 53)
    with (- k + k - (53 - Zpos (digits2_pos q))) by lia.
  apply binary_round_exact; [lia | lia | | exact Hd | lia].
  rewrite E, Em.
  rewrite <- !Z.mul_assoc, <- !Z.pow_add_r by lia.
  f_equal. f_equal. lia.
Qed.

Lemma number_of_Z_pos (q : positive) :
  Zpos (digits2_pos q) <= 53 ->
  number_of_Z (Zpos q) = S754_finite false (mantissa_of q) (Zpos (digits2_pos q) - 53).
Proof.
  intros Hq. unfold number_of_Z. cbn [binary_normalize].
  apply (binary_round_integer false q q 0); [lia | | exact Hq].
  rewrite Z.pow_0_r. lia.
Qed.

Lemma digits_le_53 (q : positive) :
  Zpos q < 2 ^ 53 -> Zpos (digits2_pos q) <= 53.
Proof.
  intros Hq. pose proof (digits_bounds q) as [Bl _].
  assert (Zpos (digits2_pos q) - 1 < 53).
  { apply (Z.pow_lt_mono_r_iff 2); lia. }
  lia.
Qed.

Lemma shl_align_fst (m : positive) (e e' : Z) :
  e' <= e -> Zpos (fst (shl_align m e e')) = Zpos m * 2 ^ (e - e').
Proof.
  intros He. unfold shl_align.
  destruct (e' - e) as [|d|d] eqn:Hd; cbn [fst]; try lia.
  - replace (e - e') with 0 by lia. rewrite Z.pow_0_r. lia.
  - rewrite Zpos_iter_xO. f_equal. f_equal. lia.
Qed.

(** [n - 1] is exact on the integers from 1 to [2 ^ 53]. *)
Lemma js_sub_one (n : Z) :
  1 <= n <= 2 ^ 53 ->
  js_sub (number_of_Z n) js_one = number_of_Z (n - 1).
Proof.
  intros [Hl Hu].
  destruct (Z.eq_dec n (2 ^ 53)) as [->|Hn]; [vm_compute; reflexivity|].
  destruct (Z.eq_dec n 1) as [->|Hn1]; [vm_compute; reflexivity|].
  destruct n as [|p|p]; try lia.
  destruct (Zpos p - 1) as [|q|q] eqn:Eq; try lia.
  assert (Hp : Zpos (digits2_pos p) <= 53) by (apply digits_le_53; lia).
  assert (Hq : Zpos (digits2_pos q) <= 53) by (apply digits_le_53; lia).
  assert (Hp2 : 2 <= Zpos (digits2_pos p)).
  { pose proof (digits_bounds p) as [_ Bu].
    destruct (Z.ltb_spec (Zpos (digits2_pos p)) 2); [|assumption].
    assert (2 ^ Zpos (digits2_pos p) <= 2 ^ 1) by (apply Z.pow_le_mono_r; lia).
    simpl in *. lia. }
  rewrite (number_of_Z_pos p Hp), (number_of_Z_pos q Hq).
  change js_one with (S754_finite false 4503599627370496 (-52)).
  unfold js_sub, SFsub.
  replace (Z.min (Zpos (digits2_pos p) - 53) (-52)) with (-52) by lia.
  rewrite !shl_align_fst by lia.
  cbn [cond_Zopp].
  destruct (mantissa_of_spec p Hp) as [Ep _]. rewrite Ep.
  replace (-52 - -52) with 0 by lia.
  replace (Zpos (digits2_pos p) - 53 - -52) with (Zpos (digits2_pos p) - 1) by lia.
  rewrite <- Z.mul_assoc, <- Z.pow_add_r by lia.
  replace (53 - Zpos (digits2_pos p) + (Zpos (digits2_pos p) - 1)) with 52 by lia.
  replace (Zpos p * 2 ^ 52 - 4503599627370496 * 2 ^ 0) with (Zpos q * 2 ^ 52)
    by (change (2 ^ 0) with 1; change (2 ^ 52) with 4503599627370496; lia).
  destruct (Zpos q * 2 ^ 52) as [|x|x] eqn:Ex;
    try (change (2 ^ 52) with 4503599627370496 in Ex; lia).
  cbn [binary_normalize].
  apply (binary_round_integer false x q 52); [lia | symmetry; exact Ex | exact Hq].
Qed.

Lemma binary_round_aux_not_negative (m e : Z) (l : location) :
  SFltb (binary_round_aux 53 1024 false m e l) (S754_zero false) = false.
Proof.
  unfold binary_round_aux.
  destruct (shr_fexp 53 1024 m e l) as [mrs' e'].
  destruct (shr_fexp 53 1024 _ e' loc_Exact) as [mrs'' e''].
  destruct (shr_m mrs''); [reflexivity| |reflexivity].
  destruct (e'' <=? 1024 - 53)%Z; reflexivity.
Qed.

Lemma binary_normalize_not_negative (z e : Z) :
  0 <= z ->
  SFltb (binary_normalize 53 1024 z e false) (S754_zero false) = false.
Proof.
  intros Hz. destruct z as [|m|m]; [reflexivity| |lia].
  cbn [binary_normalize]. unfold binary_round.
  destruct (shl_align m e _) as [mz ez].
  apply binary_round_aux_not_negative.
Qed.

Lemma shr_positive (m : Z) (r s : bool) (e n : Z) :
  0 < m -> n < Zdigits2 m ->
  exists mrs, shr (Build_shr_record m r s) e n = (mrs, Z.max e (e + n))
              /\ 0 < shr_m mrs.
Proof.
  intros Hm Hn.
  destruct n as [|k|k]; cbn [shr].
  - eexists. split; [f_equal; lia | exact Hm].
  - eexists. split; [f_equal; lia|].
    rewrite shr_m_iter by (cbn [shr_m]; lia). cbn [shr_m].
    destruct m as [|p|p]; try lia. cbn [Zdigits2] in Hn.
    pose proof (digits_bounds p) as [Bl _].
    assert (2 ^ Zpos k <= 2 ^ (Zpos (digits2_pos p) - 1))
      by (apply Z.pow_le_mono_r; lia).
    apply Z.div_str_pos. split; [apply Z.pow_pos_nonneg; lia | lia].
  - eexists. split; [f_equal; lia | exact Hm].
Qed.

Lemma round_nearest_even_positive (m : Z) (l : location) :
  0 < m -> 0 < round_nearest_even m l.
Proof.
  intros Hm. destruct l as [|[| |]]; cbn [round_nearest_even]; try lia.
  destruct (Z.even m); lia.
Qed.

Lemma Zdigits2_positive (m : Z) : 0 < m -> 0 < Zdigits2 m.
Proof. destruct m; cbn [Zdigits2]; lia. Qed.

Lemma binary_round_aux_negative (m : positive) (e : Z) :
  -1074 < Zpos (digits2_pos m) + e ->
  SFltb (binary_round_aux 53 1024 true (Zpos m) e loc_Exact) (S754_zero false) = true.
Proof.
  intros He. unfold binary_round_aux, shr_fexp.
  cbn [shr_record_of_loc].
  destruct (shr_positive (Zpos m) false false e
              (fexp 53 1024 (Zdigits2 (Zpos m) + e) - e)) as (mrs1 & E1 & P1);
    [lia | cbn [Zdigits2]; unfold fexp, emin; lia |].
  rewrite E1.
  pose proof (round_nearest_even_positive (shr_m mrs1) (loc_of_shr_record mrs1) P1) as P2.
  pose proof (Zdigits2_positive _ P2) as D2.
  set (m2 := round_nearest_even (shr_m mrs1) (loc_of_shr_record mrs1)) in *.
  set (e1 := Z.max e (e + (fexp 53 1024 (Zdigits2 (Zpos m) + e) - e))) in *.
  assert (He1 : -1074 <= e1) by (unfold e1, fexp, emin; lia).
  destruct (shr_positive m2 false false e1
              (fexp 53 1024 (Zdigits2 m2 + e1) - e1)) as (mrs2 & E2 & P3);
    [exact P2 | unfold fexp, emin; lia |].
  rewrite E2.
  destruct (shr_m mrs2); try lia.
  destruct (_ <=? _)%Z; reflexivity.
Qed.

Lemma binary_round_negative (m : positive) (e : Z) :
  -1074 < Zpos (digits2_pos m) + e ->
  SFltb (binary_round 53 1024 true m e) (S754_zero false) = true.
Proof.
  intros He. unfold binary_round, shl_align.
  destruct (fexp 53 1024 (Zpos (digits2_pos m) + e) - e) as [|d|d] eqn:Hd.
  - apply binary_round_aux_negative. exact He.
  - apply binary_round_aux_negative. exact He.
  - apply binary_round_aux_negative.
    rewrite (digits_mul_pow2 _ m (Zpos d)) by (try apply Zpos_iter_xO; lia).
    lia.
Qed.

(** A budget that is zero or negative becomes negative when decremented. *)
Lemma js_sub_one_negative (r : number) :
  js_le r js_zero = true -> js_lt (js_sub r js_one) js_zero = true.
Proof.
  destruct r as [s|s| |s m e]; try discriminate.
  - intros _. destruct s; reflexivity.
  - destruct s; [reflexivity | discriminate].
  - destruct s; [intros _ | discriminate].
    change js_one with (S754_finite false 4503599627370496 (-52)).
    change js_zero with (S754_zero false).
    unfold js_lt, js_sub, SFsub.
    rewrite !shl_align_fst by lia. cbn [cond_Zopp].
    set (ez := Z.min e (-52)).
    assert (Hp : 0 < Zpos m * 2 ^ (e - ez)).
    { apply Z.mul_pos_pos; [lia | apply Z.pow_pos_nonneg; lia]. }
    assert (Hone : 4503599627370496 * 2 ^ (-52 - ez) = 2 ^ (- ez)).
    { change 4503599627370496 with (2 ^ 52).
      rewrite <- Z.pow_add_r by lia. f_equal. lia. }
    rewrite Hone.
    assert (Hq : 0 < 2 ^ (- ez)) by (apply Z.pow_pos_nonneg; lia).
    destruct (- (Zpos m * 2 ^ (e - ez)) - 2 ^ (- ez)) as [|z|z] eqn:Ez; try lia.
    cbn [binary_normalize].
    apply binary_round_negative.
    pose proof (digits_bounds z) as [_ Bu].
    assert (- ez < Zpos (digits2_pos z)).
    { apply (Z.pow_lt_mono_r_iff 2); lia. }
    lia.
Qed.


Lemma number_of_Z_not_negative (n : Z) :
  0 <= n -> js_lt (number_of_Z n) js_zero = false.
Proof. intros Hn. apply binary_normalize_not_negative. exact Hn. Qed.

(** An integer that is zero or negative denotes a number [<= 0], however
    large it is. *)
Lemma number_of_Z_not_positive (n : Z) :
  n <= 0 -> js_le (number_of_Z n) js_zero = true.
Proof.
  intros Hn. destruct n as [|m|m]; [reflexivity | lia |].
  assert (L : SFltb (binary_round 53 1024 true m 0) (S754_zero false) = true).
  { apply binary_round_negative. pose proof (Pos2Z.is_pos (digits2_pos m)). lia. }
  unfold js_le, number_of_Z, js_zero, SFleb. cbn [binary_normalize].
  unfold SFltb in L.
  change (binary_normalize 53 1024 0 0 false) with (S754_zero false).
  destruct (SFcompare _ _) as [[| |]|]; try discriminate L. reflexivity.
Qed.


Section Iteration.

Context `{Collaborators} `{Network}.

Lemma alter_last {A} (f : A -> A) (l : list A) (x : A) :
  alter f (length l) (l ++ [x]) = l ++ [f x].
Proof.
  induction l as [|y l IH]; simpl; [reflexivity|].
  f_equal. exact IH.
Qed.

Lemma lookup_last {A} (l : list A) (x : A) : (l ++ [x]) !! length l = Some x.
Proof. induction l as [|y l IH]; simpl; auto. Qed.

Lemma lookup_app_keep {A} (l k : list A) (i : nat) (x : A) :
  l !! i = Some x -> (l ++ k) !! i = Some x.
Proof.
  revert i. induction l as [|y l IH]; intros [|i]; simpl; try discriminate; auto.
Qed.

Lemma Wallet_sign_eq (l : loc) (o : TxJson) (secret : string) (w : World) :
  heap w !! l = Some o ->
  Wallet_sign l secret w =
  lift (signature_for o secret) (with_heap (heap w ++ sign_allocs o secret) w).
Proof.
  intros Hl. destruct w as [c h t nr nf ns]. simpl in Hl.
  unfold Wallet_sign, signature_for, sign_allocs, bind, lift, Object_assign_fresh,
    bind, deref, alloc, set_prop, with_heap, ret, throw. simpl.
  destruct (wallet_new secret) as [e|k]; simpl.
  { rewrite app_nil_r. reflexivity. }
  rewrite Hl. simpl. rewrite alter_last, lookup_last.
  destruct (from_json _) as [e|blob]; simpl; [reflexivity|].
  rewrite alter_last, lookup_last.
  destruct (from_json _) as [e|sb]; reflexivity.
Qed.

Ltac finish_iteration Hl :=
  unfold with_heap; simpl; rewrite <- app_assoc; simpl;
  destruct (signature_for _ _) as [e|sr]; simpl; [reflexivity|];
  unfold submitTransaction, after_submit; simpl;
  destruct (submitTransaction_script _) as [e|res]; simpl; [reflexivity|];
  unfold is_success, is_conflict;
  destruct (strict_eq_str (engine_result_of res) "tesSUCCESS"); simpl;
  [ destruct (tx_hash_of res); reflexivity |];
  destruct (strict_eq_str (engine_result_of res) "terPRE_SEQ"),
           (strict_eq_str (engine_result_of res) "tefPAST_SEQ"); simpl;
  try reflexivity;
  rewrite (lookup_app_keep _ _ _ _ Hl); simpl;
  unfold with_cache; simpl;
  destruct (js_lt _ _); reflexivity.

Lemma submit_iteration_eq (o : TxJson) (secret : string) (tx : loc) (node : JsValue)
    (hash : JsValue) (retry : number) (w : World) :
  heap w !! tx = Some o ->
  submit_iteration secret tx node hash retry w
  = iteration_model o secret node hash retry w.
Proof.
  intros Hl. destruct w as [c h t nr nf ns]. simpl in Hl.
  unfold submit_iteration, iteration_model, classify_model, bind,
    Object_assign_fresh, bind, deref, alloc.
  simpl. rewrite Hl. simpl.
  rewrite (lookup_app_keep _ _ _ _ Hl). simpl.
  unfold swtcSequence_get, resolved, after_get, Transaction_fetchSequence,
    rpc_fetchSequence. simpl.
  destruct (c !! Account o) as [v|] eqn:Hc; simpl.
  - unfold set_prop, log, with_heap; simpl. rewrite alter_last.
    rewrite (Wallet_sign_eq (length h) (stamp v o)) by (simpl; apply lookup_last).
    finish_iteration Hl.
  - destruct (fetchSequence_script nf) as [e|v]; simpl; [reflexivity|].
    unfold set_prop, log, with_heap, with_cache; simpl. rewrite alter_last.
    rewrite (Wallet_sign_eq (length h) (stamp v o)) by (simpl; apply lookup_last).
    finish_iteration Hl.
Qed.

Lemma submit_unfold (fuel : nat) (this : Transaction) (secret : string) (tx : loc)
    (w : World) :
  submit fuel this secret tx w
  = submit_loop fuel secret tx (chosen_node this w) JsUndefined (retry this)
                (after_random w).
Proof. reflexivity. Qed.

Lemma strict_eq_str_true (v : JsValue) (s : string) :
  strict_eq_str v s = true <-> v = JsString s.
Proof.
  destruct v; simpl; split; intros E; try discriminate E.
  - apply String.eqb_eq in E. congruence.
  - inversion E. apply String.eqb_refl.
Qed.

Lemma strict_eq_str_false (v : JsValue) (s : string) :
  strict_eq_str v s = false <-> v <> JsString s.
Proof.
  rewrite <- strict_eq_str_true. destruct (strict_eq_str v s); split; congruence.
Qed.

Lemma heap_after_get (a : string) (node : JsValue) (w : World) :
  heap (after_get a node w) = heap w.
Proof.
  unfold after_get. destruct (cache w !! a); [reflexivity|].
  destruct (fetchSequence_script _); reflexivity.
Qed.

Lemma submitted_after_get (a : string) (node : JsValue) (w : World) :
  submitted (after_get a node w) = submitted w.
Proof.
  unfold after_get. destruct (cache w !! a); [reflexivity|].
  destruct (fetchSequence_script _); reflexivity.
Qed.

Lemma randoms_after_get (a : string) (node : JsValue) (w : World) :
  randoms (after_get a node w) = randoms w.
Proof.
  unfold after_get. destruct (cache w !! a); [reflexivity|].
  destruct (fetchSequence_script _); reflexivity.
Qed.

Lemma cache_after_get (a : string) (node : JsValue) (w : World) (s : Z) :
  resolved a w = inr s ->
  cache (after_get a node w) = <[a := s]> (cache w).
Proof.
  unfold resolved, after_get. destruct (cache w !! a) as [v|] eqn:E.
  - intros [= ->]. simpl. symmetry. apply insert_id. exact E.
  - intros ->. reflexivity.
Qed.

Lemma cache_after_get_failed (a : string) (node : JsValue) (w : World) (e : JsError) :
  resolved a w = inl e ->
  cache (after_get a node w) = cache w.
Proof.
  unfold resolved, after_get. destruct (cache w !! a) as [v|] eqn:E.
  - discriminate.
  - intros ->. reflexivity.
Qed.

(** When the resolver and the signer succeed, the iteration submits once and
    classifies the answer. *)
Lemma iteration_answered (o : TxJson) (secret : string) (tx : loc) (node : JsValue)
    (hash : JsValue) (retry : number) (w : World) (s : Z) (sr : SignResult) :
  heap w !! tx = Some o ->
  resolved (Account o) w = inr s ->
  signature_for (stamp s o) secret = inr sr ->
  exists w3,
    submit_iteration secret tx node hash retry w
    = classify_model (Account o) hash retry
        (submitTransaction_script (submitted w)) w3
    /\ submitted w3 = S (submitted w)
    /\ cache w3 = <[Account o := s]> (cache w)
    /\ heap w3 !! tx = Some o.
Proof.
  intros Hl Hres Hsig.
  rewrite (submit_iteration_eq o) by exact Hl.
  unfold iteration_model. rewrite Hres, Hsig.
  eexists. split; [reflexivity|].
  simpl. rewrite submitted_after_get.
  rewrite (cache_after_get _ _ _ s) by exact Hres.
  repeat split. apply lookup_app_keep. exact Hl.
Qed.

(** An answer that is neither a success nor a sequence conflict ends the
    call at once, whatever the budget. *)
Lemma submit_first_answer_fatal (this : Transaction) (secret : string) (tx : loc)
    (o : TxJson) (fuel : nat) (w : World) (s : Z) (sr : SignResult) (res : JsValue) :
  heap w !! tx = Some o ->
  resolved (Account o) w = inr s ->
  signature_for (stamp s o) secret = inr sr ->
  submitTransaction_script (submitted w) = inr res ->
  is_success res = false ->
  is_conflict res = false ->
  exists w',
    submit (S fuel) this secret tx w = Threw (new_Error (JSON_stringify res)) w'
    /\ submitted w' = S (submitted w)
    /\ cache w' = <[Account o := s]> (cache w).
Proof.
  intros Hl Hres Hsig Hans Hs Hc.
  rewrite submit_unfold. simpl. unfold bind.
  destruct (iteration_answered o secret tx (chosen_node this w) JsUndefined
              (retry this) (after_random w) s sr Hl Hres Hsig)
    as (w3 & -> & Hsub & Hcache & _).
  simpl. rewrite Hans. simpl. rewrite Hs, Hc.
  exists w3. auto.
Qed.

(** C4. An engine result other than tesSUCCESS, terPRE_SEQ and tefPAST_SEQ
    on the first submission makes [submit] throw after exactly that one
    submission, whatever the retry budget, and the error thrown is
    [new Error(JSON.stringify(res))] for that answer [res]. *)
Theorem submit_fatal_short_circuit (this : Transaction) (secret : string) (tx : loc)
    (o : TxJson) (fuel : nat) (w : World) (s : Z) (sr : SignResult) (res : JsValue) :
  heap w !! tx = Some o ->
  resolved (Account o) w = inr s ->
  signature_for (stamp s o) secret = inr sr ->
  submitTransaction_script (submitted w) = inr res ->
  engine_result_of res <> JsString "tesSUCCESS" ->
  engine_result_of res <> JsString "terPRE_SEQ" ->
  engine_result_of res <> JsString "tefPAST_SEQ" ->
  exists w',
    submit (S fuel) this secret tx w = Threw (new_Error (JSON_stringify res)) w'
    /\ submitted w' = S (submitted w).
Proof.
  intros Hl Hres Hsig Hans N1 N2 N3.
  apply strict_eq_str_false in N1, N2, N3.
  destruct (submit_first_answer_fatal this secret tx o fuel w s sr res)
    as (w' & E & Hsub & _); auto.
  - unfold is_conflict. rewrite N2, N3. reflexivity.
  - exists w'. auto.
Qed.

(** ** What every iteration preserves *)

Lemma world_of_classify (a : string) (hash : JsValue) (retry : number)
    (r : JsError + JsValue) (w : World) :
  let w' := world_of (classify_model a hash retry r w) in
  heap w' = heap w /\ trace w' = trace w /\ randoms w' = randoms w
  /\ fetched w' = fetched w /\ submitted w' = submitted w.
Proof.
  unfold classify_model. destruct r as [e|res]; simpl; auto.
  destruct (is_success res).
  - destruct (tx_hash_of res); simpl; auto.
  - destruct (is_conflict res); simpl; auto.
    destruct (js_lt _ _); simpl; auto.
Qed.

Lemma trace_after_get (a : string) (node : JsValue) (w : World) :
  trace (after_get a node w) = trace w ++ get_events a node w.
Proof.
  unfold after_get, get_events. destruct (cache w !! a); [reflexivity|].
  destruct (fetchSequence_script _); simpl; rewrite <- app_assoc; reflexivity.
Qed.

Lemma fetched_after_get (a : string) (node : JsValue) (w : World) :
  (fetched w <= fetched (after_get a node w))%nat
  /\ (cache w !! a = None -> fetched (after_get a node w) = S (fetched w)).
Proof.
  unfold after_get. destruct (cache w !! a).
  - simpl. split; [lia | discriminate].
  - destruct (fetchSequence_script _); simpl; split; auto; lia.
Qed.

(** The world an iteration leaves: the store only grew, the trace grew by
    the iteration's calls, at most one more submission. *)
Lemma iteration_frame (o : TxJson) (secret : string) (tx : loc) (node : JsValue)
    (hash : JsValue) (retry : number) (w : World) :
  heap w !! tx = Some o ->
  iteration_post o secret node w
    (world_of (submit_iteration secret tx node hash retry w)).
Proof.
  intros Hl. rewrite (submit_iteration_eq o) by exact Hl.
  unfold iteration_post, iteration_model, iteration_events.
  pose proof (fetched_after_get (Account o) node (with_heap (heap w ++ [o]) w))
    as [Hf1 Hf2]. simpl in Hf1, Hf2.
  destruct (resolved (Account o) w) as [e|s] eqn:Hres.
  { simpl.
    rewrite heap_after_get, trace_after_get, randoms_after_get, submitted_after_get.
    simpl. rewrite app_nil_r. repeat split; eauto; try lia. }
  destruct (signature_for (stamp s o) secret) as [e|sr] eqn:Hsig.
  { simpl. rewrite trace_after_get, randoms_after_get, submitted_after_get.
    simpl. rewrite app_nil_r. repeat split; eauto; try lia. }
  destruct (world_of_classify (Account o) hash retry
              (submitTransaction_script (submitted w))
              (after_submit node (sr_blob sr)
                 (with_heap (heap w ++ [stamp s o] ++ sign_allocs (stamp s o) secret)
                    (after_get (Account o) node (with_heap (heap w ++ [o]) w)))))
    as (E1 & E2 & E3 & E4 & E5).
  rewrite E1, E2, E3, E4, E5. simpl.
  rewrite trace_after_get, randoms_after_get, submitted_after_get. simpl.
  repeat split; eauto; try lia.
  rewrite <- app_assoc. reflexivity.
Qed.

Lemma iteration_keeps_tx (o : TxJson) (secret : string) (tx : loc) (node : JsValue)
    (hash : JsValue) (retry : number) (w : World) :
  heap w !! tx = Some o ->
  heap (world_of (submit_iteration secret tx node hash retry w)) !! tx = Some o.
Proof.
  intros Hl.
  destruct (iteration_frame o secret tx node hash retry w Hl) as ((h' & E) & _).
  rewrite E. apply lookup_app_keep. exact Hl.
Qed.

(** A relation between worlds that every iteration respects holds between
    the worlds before and after the loop. *)
Lemma submit_loop_preserves (R : World -> World -> Prop) (o : TxJson)
    (secret : string) (tx : loc) (node : JsValue) :
  (forall w, R w w) ->
  (forall a b c, R a b -> R b c -> R a c) ->
  (forall hash retry w,
      heap w !! tx = Some o ->
      R w (world_of (submit_iteration secret tx node hash retry w))) ->
  forall fuel hash retry w,
    heap w !! tx = Some o ->
    R w (world_of (submit_loop fuel secret tx node hash retry w)).
Proof.
  intros Hrefl Htrans Hstep.
  induction fuel as [|fuel IH]; intros hash retry w Hl; simpl.
  - destruct (truthy hash); simpl; apply Hrefl.
  - destruct (truthy hash); simpl; [apply Hrefl|].
    unfold bind.
    pose proof (Hstep hash retry w Hl) as Hs.
    pose proof (iteration_keeps_tx o secret tx node hash retry w Hl) as Hk.
    destruct (submit_iteration secret tx node hash retry w) as [st w1|e w1|w1];
      simpl in *; try exact Hs.
    eapply Htrans; [exact Hs|]. apply IH. exact Hk.
Qed.

Lemma iteration_events_node (o : TxJson) (secret : string) (node : JsValue)
    (w : World) :
  Forall (uses_node node) (iteration_events o secret node w).
Proof.
  unfold iteration_events, get_events, resolved.
  destruct (cache w !! Account o) as [v|].
  - destruct (signature_for _ _); repeat constructor.
  - destruct (fetchSequence_script _) as [e|s]; [repeat constructor|].
    destruct (signature_for _ _); repeat constructor.
Qed.

Lemma freshly_signed_weaken (o : TxJson) (secret : string) (evs : list Event) :
  freshly_signed o secret None evs = true ->
  forall st, freshly_signed o secret st evs = true.
Proof.
  induction evs as [|ev evs IH]; intros Hn st; [reflexivity|].
  destruct ev as [r|n a r|a n r|n b r]; simpl in *.
  - apply IH. exact Hn.
  - apply IH. exact Hn.
  - exact Hn.
  - discriminate Hn.
Qed.

Lemma freshly_signed_app (o : TxJson) (secret : string) (evs1 evs2 : list Event) :
  forall st,
    freshly_signed o secret st evs1 = true ->
    freshly_signed o secret None evs2 = true ->
    freshly_signed o secret st (evs1 ++ evs2) = true.
Proof.
  induction evs1 as [|ev evs1 IH]; intros st H1 H2; simpl.
  - apply freshly_signed_weaken. exact H2.
  - destruct ev as [r|n a r|a n [e|s]|n b r]; simpl in *; auto.
    destruct st as [s|]; [|discriminate H1].
    destruct (signature_for (stamp s o) secret) as [e|sr]; [discriminate H1|].
    apply andb_true_iff in H1 as [Hb Hr].
    rewrite Hb. simpl. auto.
Qed.

Lemma iteration_events_signed (o : TxJson) (secret : string) (node : JsValue)
    (w : World) :
  freshly_signed o secret None (iteration_events o secret node w) = true.
Proof.
  unfold iteration_events, get_events, resolved.
  destruct (cache w !! Account o) as [v|].
  - destruct (signature_for (stamp v o) secret) as [e|sr] eqn:Hsig; simpl;
      [reflexivity|].
    rewrite Hsig, String.eqb_refl. reflexivity.
  - destruct (fetchSequence_script _) as [e|s]; simpl; [reflexivity|].
    destruct (signature_for (stamp s o) secret) as [e|sr] eqn:Hsig; simpl;
      [reflexivity|].
    rewrite Hsig, String.eqb_refl. reflexivity.
Qed.

(** Each iteration allocates its copy: a new object, the caller's content
    with at most the sequence stamped on it. *)
Lemma iteration_copies (o : TxJson) (secret : string) (tx : loc) (node : JsValue)
    (hash : JsValue) (retry : number) (w : World) :
  heap w !! tx = Some o ->
  exists c h',
    heap (world_of (submit_iteration secret tx node hash retry w))
    = heap w ++ c :: h'
    /\ (c = o \/ exists s, c = stamp s o).
Proof.
  intros Hl. rewrite (submit_iteration_eq o) by exact Hl.
  unfold iteration_model.
  destruct (resolved (Account o) w) as [e|s].
  { simpl. rewrite heap_after_get. simpl. exists o, []. auto. }
  destruct (signature_for (stamp s o) secret) as [e|sr].
  { simpl. exists (stamp s o), (sign_allocs (stamp s o) secret). eauto. }
  destruct (world_of_classify (Account o) hash retry
              (submitTransaction_script (submitted w))
              (after_submit node (sr_blob sr)
                 (with_heap (heap w ++ [stamp s o] ++ sign_allocs (stamp s o) secret)
                    (after_get (Account o) node (with_heap (heap w ++ [o]) w)))))
    as (E1 & _).
  rewrite E1. simpl. exists (stamp s o), (sign_allocs (stamp s o) secret). eauto.
Qed.

(** C9. [submit] calls [getNode] once, before the loop: one [Math.random]
    per call of [submit], and every fetch, every resolution and every
    submission of the call goes to the node chosen then. *)
Theorem submit_single_node (this : Transaction) (secret : string) (tx : loc)
    (o : TxJson) (fuel : nat) (w : World) :
  heap w !! tx = Some o ->
  let w' := world_of (submit fuel this secret tx w) in
  randoms w' = S (randoms w)
  /\ exists evs,
       trace w' = trace w ++ EvRandom (Math_random (randoms w)) :: evs
       /\ Forall (uses_node (chosen_node this w)) evs.
Proof.
  intros Hl. rewrite submit_unfold.
  pose proof (submit_loop_preserves
    (fun a b => randoms b = randoms a
                /\ exists evs, trace b = trace a ++ evs
                               /\ Forall (uses_node (chosen_node this w)) evs)
    o secret tx (chosen_node this w)) as Hinv.
  destruct (Hinv) with (fuel := fuel) (hash := JsUndefined) (retry := retry this)
                       (w := after_random w) as (Hr & evs & Ht & Hn).
  - intros a. split; [reflexivity|]. exists []. rewrite app_nil_r. auto.
  - intros a b c (R1 & e1 & T1 & F1) (R2 & e2 & T2 & F2).
    split; [congruence|]. exists (e1 ++ e2).
    rewrite T2, T1, app_assoc. split; [reflexivity|].
    apply Forall_app. auto.
  - intros hash retry0 w0 Hl0.
    destruct (iteration_frame o secret tx (chosen_node this w) hash retry0 w0 Hl0)
      as (_ & Ht & Hr & _).
    split; [exact Hr|]. eexists. split; [exact Ht|].
    apply iteration_events_node.
  - exact Hl.
  - simpl. split; [exact Hr|]. exists evs. split; [|exact Hn].
    rewrite Ht. simpl. rewrite <- app_assoc. reflexivity.
Qed.

(** C8. [submit] never writes to the caller's transaction object: after
    the call the object, and every object that existed before, is as it
    was.  Each iteration allocates a new object for its copy, before
    stamping and signing.  Every blob submitted is the signature of the
    caller's content stamped with the sequence resolved in the same
    iteration, so no blob signed for one sequence goes out with another. *)
Theorem submit_copies_and_resigns (this : Transaction) (secret : string) (tx : loc)
    (o : TxJson) (fuel : nat) (w : World) :
  heap w !! tx = Some o ->
  let w' := world_of (submit fuel this secret tx w) in
  heap w' !! tx = Some o
  /\ (exists h', heap w' = heap w ++ h')
  /\ (exists evs, trace w' = trace w ++ evs
                  /\ freshly_signed o secret None evs = true)
  /\ (forall node hash retry w0,
        heap w0 !! tx = Some o ->
        exists c h',
          heap (world_of (submit_iteration secret tx node hash retry w0))
          = heap w0 ++ c :: h'
          /\ (c = o \/ exists s, c = stamp s o)).
Proof.
  intros Hl. rewrite submit_unfold.
  pose proof (submit_loop_preserves
    (fun a b => (exists h', heap b = heap a ++ h')
                /\ exists evs, trace b = trace a ++ evs
                               /\ freshly_signed o secret None evs = true)
    o secret tx (chosen_node this w)) as Hinv.
  destruct (Hinv) with (fuel := fuel) (hash := JsUndefined) (retry := retry this)
                       (w := after_random w) as ((h' & Hh) & evs & Ht & Hs).
  - intros a. split; [exists []; rewrite app_nil_r; reflexivity|].
    exists []. rewrite app_nil_r. auto.
  - intros a b c ((h1 & E1) & e1 & T1 & F1) ((h2 & E2) & e2 & T2 & F2). split.
    + exists (h1 ++ h2). rewrite E2, E1, app_assoc. reflexivity.
    + exists (e1 ++ e2). rewrite T2, T1, app_assoc. split; [reflexivity|].
      apply freshly_signed_app; assumption.
  - intros hash retry0 w0 Hl0.
    destruct (iteration_frame o secret tx (chosen_node this w) hash retry0 w0 Hl0)
      as (Hh & Ht & _).
    split; [exact Hh|]. eexists. split; [exact Ht|].
    apply iteration_events_signed.
  - exact Hl.
  - simpl in Hh, Ht. simpl. repeat split.
    + rewrite Hh. apply lookup_app_keep. exact Hl.
    + exists h'. exact Hh.
    + eexists. rewrite Ht, <- app_assoc. split; [reflexivity|]. simpl. exact Hs.
    + intros node hash retry0 w0 Hl0. apply iteration_copies. exact Hl0.
Qed.

(** ** Successes and sequence conflicts *)

Lemma iteration_success (o : TxJson) (secret : string) (tx : loc) (node : JsValue)
    (hash : JsValue) (retry : number) (w : World) (s : Z) (sr : SignResult)
    (res h : JsValue) :
  heap w !! tx = Some o ->
  resolved (Account o) w = inr s ->
  signature_for (stamp s o) secret = inr sr ->
  submitTransaction_script (submitted w) = inr res ->
  is_success res = true ->
  tx_hash_of res = inr h ->
  exists w3,
    submit_iteration secret tx node hash retry w = Returned (h, retry) w3
    /\ submitted w3 = S (submitted w)
    /\ cache w3 = <[Account o := s]> (cache w)
    /\ heap w3 !! tx = Some o
    /\ iteration_post o secret node w w3.
Proof.
  intros Hl Hres Hsig Hans Hs Hh.
  destruct (iteration_answered o secret tx node hash retry w s sr Hl Hres Hsig)
    as (w3 & E & Hsub & Hc & Hk).
  unfold classify_model in E. rewrite Hans, Hs, Hh in E.
  exists w3.
  split; [exact E | split; [exact Hsub | split; [exact Hc | split; [exact Hk|]]]].
  pose proof (iteration_frame o secret tx node hash retry w Hl) as P.
  rewrite E in P. exact P.
Qed.

Lemma iteration_conflict (o : TxJson) (secret : string) (tx : loc) (node : JsValue)
    (hash : JsValue) (retry : number) (w : World) (s : Z) (sr : SignResult)
    (res : JsValue) :
  heap w !! tx = Some o ->
  resolved (Account o) w = inr s ->
  signature_for (stamp s o) secret = inr sr ->
  submitTransaction_script (submitted w) = inr res ->
  is_success res = false ->
  is_conflict res = true ->
  exists w4,
    submit_iteration secret tx node hash retry w
    = (if js_lt (js_sub retry js_one) js_zero
       then Threw (new_Error (JSON_stringify res)) w4
       else Returned (hash, js_sub retry js_one) w4)
    /\ submitted w4 = S (submitted w)
    /\ cache w4 = delete (Account o) (cache w)
    /\ heap w4 !! tx = Some o
    /\ iteration_post o secret node w w4.
Proof.
  intros Hl Hres Hsig Hans Hs Hc.
  destruct (iteration_answered o secret tx node hash retry w s sr Hl Hres Hsig)
    as (w3 & E & Hsub & Hca & Hk).
  unfold classify_model in E. rewrite Hans, Hs, Hc in E.
  exists (with_cache (delete (Account o) (cache w3)) w3).
  split; [|split; [|split; [|split]]].
  - rewrite E. destruct (js_lt _ _); reflexivity.
  - exact Hsub.
  - simpl. rewrite Hca. apply delete_insert_eq.
  - exact Hk.
  - pose proof (iteration_frame o secret tx node hash retry w Hl) as P.
    rewrite E in P. destruct (js_lt _ _); exact P.
Qed.

Lemma conflict_codes (res : JsValue) :
  engine_result_of res = JsString "terPRE_SEQ"
  \/ engine_result_of res = JsString "tefPAST_SEQ" ->
  is_success res = false /\ is_conflict res = true.
Proof.
  unfold is_success, is_conflict. intros [E | E]; rewrite E; split; reflexivity.
Qed.

(** With only sequence conflicts for answers, the loop started with an
    integer budget [n] up to [2 ^ 53] submits [n + 1] times and throws the
    last answer. *)
Lemma submit_loop_all_conflicts (o : TxJson) (secret : string) (tx : loc)
    (node : JsValue) :
  (forall k, exists v, fetchSequence_script k = inr v) ->
  (forall s, exists sr, signature_for (stamp s o) secret = inr sr) ->
  forall (n fuel : nat) (w : World),
    (Z.of_nat n <= 2 ^ 53)%Z ->
    (n < fuel)%nat ->
    heap w !! tx = Some o ->
    (forall i, (i <= n)%nat ->
       exists res, submitTransaction_script (submitted w + i) = inr res
                   /\ is_success res = false /\ is_conflict res = true) ->
    exists res w',
      submit_loop fuel secret tx node JsUndefined (number_of_Z (Z.of_nat n)) w
      = Threw (new_Error (JSON_stringify res)) w'
      /\ submitTransaction_script (submitted w + n) = inr res
      /\ submitted w' = (submitted w + n + 1)%nat
      /\ cache w' !! Account o = None.
Proof.
  intros Hfetch Hsign.
  induction n as [|n IH]; intros fuel w Hsafe Hfuel Hl Hscript.
  - destruct fuel as [|fuel]; [lia|]. simpl. unfold bind.
    destruct (Hscript 0%nat) as (res & Hans & Hs & Hc); [lia|].
    rewrite Nat.add_0_r in Hans.
    assert (exists s, resolved (Account o) w = inr s) as [s Hres].
    { unfold resolved. destruct (cache w !! Account o); eauto. }
    destruct (Hsign s) as [sr Hsig].
    destruct (iteration_conflict o secret tx node JsUndefined
                (number_of_Z (Z.of_nat 0)) w s sr res
                Hl Hres Hsig Hans Hs Hc) as (w4 & E & Hsub & Hca & _).
    rewrite E.
    replace (js_lt (js_sub (number_of_Z (Z.of_nat 0)) js_one) js_zero) with true
      by reflexivity.
    exists res, w4. repeat split.
    + rewrite Nat.add_0_r. exact Hans.
    + lia.
    + rewrite Hca. apply lookup_delete_eq.
  - destruct fuel as [|fuel]; [lia|]. simpl submit_loop. unfold bind.
    destruct (Hscript 0%nat) as (res & Hans & Hs & Hc); [lia|].
    rewrite Nat.add_0_r in Hans.
    assert (exists s, resolved (Account o) w = inr s) as [s Hres].
    { unfold resolved. destruct (cache w !! Account o); eauto. }
    destruct (Hsign s) as [sr Hsig].
    destruct (iteration_conflict o secret tx node JsUndefined
                (number_of_Z (Z.of_nat (S n))) w
                s sr res Hl Hres Hsig Hans Hs Hc) as (w4 & E & Hsub & Hca & Hk & _).
    rewrite E.
    rewrite (js_sub_one (Z.of_nat (S n))) by lia.
    replace (Z.of_nat (S n) - 1)%Z with (Z.of_nat n) by lia.
    rewrite number_of_Z_not_negative by lia.
    simpl fst. simpl snd.
    destruct (IH fuel w4) as (res' & w' & E' & Hlast & Hsub' & Hnone).
    + lia.
    + lia.
    + exact Hk.
    + intros i Hi. rewrite Hsub.
      replace (S (submitted w) + i)%nat with (submitted w + S i)%nat by lia.
      apply Hscript. lia.
    + exists res', w'. rewrite E'. repeat split; auto.
      * rewrite <- Hlast. f_equal. lia.
      * lia.
Qed.

(** C2, as amended. With an integer retry budget [n] from 0 to [2 ^ 53],
    the integers on which [retry - 1] is exact, and tefPAST_SEQ for the
    answer of each of the next [n + 2] submissions, [submit] throws after
    exactly [n + 1] submissions; the answer thrown is the one of submission
    [n + 1]. *)
Theorem submit_budget_exhaustion (ns : list string) (secret : string) (tx : loc)
    (o : TxJson) (n fuel : nat) (w : World) :
  (Z.of_nat n <= 2 ^ 53)%Z ->
  heap w !! tx = Some o ->
  (forall k, exists v, fetchSequence_script k = inr v) ->
  (forall s, exists sr, signature_for (stamp s o) secret = inr sr) ->
  (forall i, (i < n + 2)%nat ->
     exists res, submitTransaction_script (submitted w + i) = inr res
                 /\ engine_result_of res = JsString "tefPAST_SEQ") ->
  (n < fuel)%nat ->
  exists res w',
    submit fuel (mkTransaction ns (number_of_Z (Z.of_nat n))) secret tx w
    = Threw (new_Error (JSON_stringify res)) w'
    /\ submitTransaction_script (submitted w + n) = inr res
    /\ submitted w' = (submitted w + (n + 1))%nat
    /\ submitted w' <> (submitted w + (n + 2))%nat.
Proof.
  intros Hsafe Hl Hfetch Hsign Hscript Hfuel.
  rewrite submit_unfold. simpl retry.
  destruct (submit_loop_all_conflicts o secret tx
              (chosen_node (mkTransaction ns (number_of_Z (Z.of_nat n))) w)
              Hfetch Hsign n fuel (after_random w) Hsafe Hfuel Hl)
    as (res & w' & E & Hlast & Hsub & _).
  - intros i Hi. destruct (Hscript i) as (res & Hans & Hcode); [lia|].
    exists res. split; [exact Hans|]. apply conflict_codes. auto.
  - exists res, w'. simpl in Hsub, Hlast. repeat split; auto; lia.
Qed.

(** C3, as amended. With the retry budget 0, a sequence conflict
    (terPRE_SEQ or tefPAST_SEQ) on the first submission makes [submit] throw
    that answer after exactly one submission: there is no retry.  The cached
    sequence of the account is cleared. *)
Theorem submit_zero_budget_no_retry (this : Transaction) (secret : string) (tx : loc)
    (o : TxJson) (fuel : nat) (w : World) (s : Z) (sr : SignResult) (res : JsValue) :
  retry this = number_of_Z 0 ->
  heap w !! tx = Some o ->
  resolved (Account o) w = inr s ->
  signature_for (stamp s o) secret = inr sr ->
  submitTransaction_script (submitted w) = inr res ->
  engine_result_of res = JsString "terPRE_SEQ"
  \/ engine_result_of res = JsString "tefPAST_SEQ" ->
  exists w',
    submit (S fuel) this secret tx w = Threw (new_Error (JSON_stringify res)) w'
    /\ submitted w' = S (submitted w)
    /\ cache w' !! Account o = None.
Proof.
  intros Hr Hl Hres Hsig Hans Hcode.
  apply conflict_codes in Hcode as [Hs Hc].
  rewrite submit_unfold, Hr. simpl. unfold bind.
  destruct (iteration_conflict o secret tx (chosen_node this w) JsUndefined
              (number_of_Z 0) (after_random w) s sr res Hl Hres Hsig Hans Hs Hc)
    as (w4 & E & Hsub & Hca & _).
  rewrite E.
  change (js_lt (js_sub (number_of_Z 0) js_one) js_zero) with true.
  simpl. exists w4. repeat split; auto.
  rewrite Hca. apply lookup_delete_eq.
Qed.

(** ** Answers without an engine result *)

(** An answer that is neither a success nor a sequence conflict ends the
    loop at the iteration that receives it, whatever the state of the
    loop. *)
Lemma submit_loop_answer_fatal (o : TxJson) (secret : string) (tx : loc)
    (node : JsValue) (hash : JsValue) (retry : number) (fuel : nat) (w : World)
    (s : Z) (sr : SignResult) (res : JsValue) :
  truthy hash = false ->
  heap w !! tx = Some o ->
  resolved (Account o) w = inr s ->
  signature_for (stamp s o) secret = inr sr ->
  submitTransaction_script (submitted w) = inr res ->
  is_success res = false ->
  is_conflict res = false ->
  exists w',
    submit_loop (S fuel) secret tx node hash retry w
    = Threw (new_Error (JSON_stringify res)) w'
    /\ submitted w' = S (submitted w)
    /\ cache w' = <[Account o := s]> (cache w).
Proof.
  intros Hf Hl Hres Hsig Hans Hs Hc.
  simpl. rewrite Hf. unfold bind.
  destruct (iteration_answered o secret tx node hash retry w s sr Hl Hres Hsig)
    as (w3 & -> & Hsub & Hcache & _).
  unfold classify_model. rewrite Hans, Hs, Hc.
  exists w3. auto.
Qed.

(** [k] sequence conflicts within an integer budget [n] use up [k]
    iterations and leave the budget [n - k]. *)
Lemma submit_loop_skip_conflicts (o : TxJson) (secret : string) (tx : loc)
    (node : JsValue) :
  (forall k, exists v, fetchSequence_script k = inr v) ->
  (forall s, exists sr, signature_for (stamp s o) secret = inr sr) ->
  forall (k fuel : nat) (n : Z) (w : World),
    (Z.of_nat k <= n <= 2 ^ 53)%Z ->
    heap w !! tx = Some o ->
    (forall i, (i < k)%nat ->
       exists res', submitTransaction_script (submitted w + i) = inr res'
                    /\ is_success res' = false /\ is_conflict res' = true) ->
    exists wk,
      submit_loop (k + fuel) secret tx node JsUndefined (number_of_Z n) w
      = submit_loop fuel secret tx node JsUndefined
          (number_of_Z (n - Z.of_nat k)) wk
      /\ heap wk !! tx = Some o
      /\ submitted wk = (submitted w + k)%nat.
Proof.
  intros Hfetch Hsign.
  induction k as [|k IH]; intros fuel n w Hn Hl Hconf.
  - exists w. replace (n - Z.of_nat 0)%Z with n by lia.
    split; [reflexivity|]. split; [exact Hl | lia].
  - assert (exists s, resolved (Account o) w = inr s) as [s Hres].
    { unfold resolved. destruct (cache w !! Account o); eauto. }
    destruct (Hsign s) as [sr Hsig].
    destruct (Hconf 0%nat) as (res' & Hans' & Hs' & Hc'); [lia|].
    rewrite Nat.add_0_r in Hans'.
    destruct (iteration_conflict o secret tx node JsUndefined (number_of_Z n) w s sr
                res' Hl Hres Hsig Hans' Hs' Hc')
      as (w4 & E & Hsub & _ & Hk & _).
    change (S k + fuel)%nat with (S (k + fuel)). simpl submit_loop. unfold bind.
    rewrite E.
    rewrite (js_sub_one n) by lia.
    rewrite number_of_Z_not_negative by lia.
    cbn [fst snd].
    destruct (IH fuel (n - 1)%Z w4) as (wk & Ek & Hlk & Hsk).
    + lia.
    + exact Hk.
    + intros i Hi. rewrite Hsub.
      replace (S (submitted w) + i)%nat with (submitted w + S i)%nat by lia.
      apply Hconf. lia.
    + exists wk. rewrite Ek.
      replace (n - 1 - Z.of_nat k)%Z with (n - Z.of_nat (S k))%Z by lia.
      split; [reflexivity|]. split; [exact Hlk | lia].
Qed.

Lemma missing_engine_result (res : JsValue) :
  is_nullish res = true
  \/ is_nullish (get_prop res "result") = true
  \/ get_prop (get_prop res "result") "engine_result" = JsUndefined ->
  engine_result_of res = JsUndefined.
Proof.
  intros Hmiss. unfold engine_result_of, opt_member.
  destruct Hmiss as [N | [N | N]].
  - rewrite N. reflexivity.
  - destruct (is_nullish res); [reflexivity|]. rewrite N. reflexivity.
  - destruct (is_nullish res); [reflexivity|].
    destruct (is_nullish (get_prop res "result")); [reflexivity | exact N].
Qed.

(** C10, as amended.  An answer without a [result] or without an
    [engine_result] ([undefined] and [null] included) is read without a
    crash: its engine result is [undefined].  (1) At whatever iteration of
    the loop it arrives, whatever the budget then, the loop throws
    [new Error(JSON.stringify(res))] after that one submission, and the
    cached sequence is the resolved one: it is not cleared.  (2) So does
    [submit] when it is the first answer, and (3) when it comes after [k]
    sequence conflicts within an integer budget: [k + 1] submissions were
    made.  (4) The message of the error is the serialization of the answer,
    except for the answer [undefined], which has none: the message is then
    empty. *)
Theorem submit_missing_engine_result :
  (forall o secret tx node hash retry fuel w s sr res,
     truthy hash = false ->
     heap w !! tx = Some o ->
     resolved (Account o) w = inr s ->
     signature_for (stamp s o) secret = inr sr ->
     submitTransaction_script (submitted w) = inr res ->
     is_nullish res = true
     \/ is_nullish (get_prop res "result") = true
     \/ get_prop (get_prop res "result") "engine_result" = JsUndefined ->
     engine_result_of res = JsUndefined
     /\ exists w',
          submit_loop (S fuel) secret tx node hash retry w
          = Threw (new_Error (JSON_stringify res)) w'
          /\ submitted w' = S (submitted w)
          /\ cache w' !! Account o = Some s)
  /\ (forall this secret tx o fuel w s sr res,
        heap w !! tx = Some o ->
        resolved (Account o) w = inr s ->
        signature_for (stamp s o) secret = inr sr ->
        submitTransaction_script (submitted w) = inr res ->
        is_nullish res = true
        \/ is_nullish (get_prop res "result") = true
        \/ get_prop (get_prop res "result") "engine_result" = JsUndefined ->
        engine_result_of res = JsUndefined
        /\ exists w',
             submit (S fuel) this secret tx w
             = Threw (new_Error (JSON_stringify res)) w'
             /\ submitted w' = S (submitted w)
             /\ cache w' !! Account o = Some s)
  /\ (forall this secret tx o k fuel n w res,
        retry this = number_of_Z n ->
        (Z.of_nat k <= n <= 2 ^ 53)%Z ->
        (k < fuel)%nat ->
        heap w !! tx = Some o ->
        (forall j, exists v, fetchSequence_script j = inr v) ->
        (forall s, exists sr, signature_for (stamp s o) secret = inr sr) ->
        (forall i, (i < k)%nat ->
           exists res', submitTransaction_script (submitted w + i) = inr res'
                        /\ (engine_result_of res' = JsString "terPRE_SEQ"
                            \/ engine_result_of res' = JsString "tefPAST_SEQ")) ->
        submitTransaction_script (submitted w + k) = inr res ->
        is_nullish res = true
        \/ is_nullish (get_prop res "result") = true
        \/ get_prop (get_prop res "result") "engine_result" = JsUndefined ->
        exists w' s,
          submit fuel this secret tx w = Threw (new_Error (JSON_stringify res)) w'
          /\ submitted w' = (submitted w + k + 1)%nat
          /\ cache w' !! Account o = Some s)
  /\ (forall res, res <> JsUndefined ->
        new_Error (JSON_stringify res) = Error (JSON_stringify_defined res))
  /\ new_Error (JSON_stringify JsUndefined) = Error "".
Proof.
  assert (Hloop : forall o secret tx node hash retry0 fuel w s sr res,
     truthy hash = false ->
     heap w !! tx = Some o ->
     resolved (Account o) w = inr s ->
     signature_for (stamp s o) secret = inr sr ->
     submitTransaction_script (submitted w) = inr res ->
     is_nullish res = true
     \/ is_nullish (get_prop res "result") = true
     \/ get_prop (get_prop res "result") "engine_result" = JsUndefined ->
     engine_result_of res = JsUndefined
     /\ exists w',
          submit_loop (S fuel) secret tx node hash retry0 w
          = Threw (new_Error (JSON_stringify res)) w'
          /\ submitted w' = S (submitted w)
          /\ cache w' !! Account o = Some s).
  { intros o secret tx node hash retry0 fuel w s sr res Hf Hl Hres Hsig Hans Hmiss.
    pose proof (missing_engine_result res Hmiss) as E.
    split; [exact E|].
    destruct (submit_loop_answer_fatal o secret tx node hash retry0 fuel w s sr res)
      as (w' & Es & Hsub & Hc); auto.
    - unfold is_success. rewrite E. reflexivity.
    - unfold is_conflict. rewrite E. reflexivity.
    - exists w'. split; [exact Es|]. split; [exact Hsub|].
      rewrite Hc. apply lookup_insert_eq. }
  split; [exact Hloop|]. split; [|split; [|split]].
  - intros this secret tx o fuel w s sr res Hl Hres Hsig Hans Hmiss.
    rewrite submit_unfold.
    exact (Hloop o secret tx (chosen_node this w) JsUndefined (retry this) fuel
             (after_random w) s sr res eq_refl Hl Hres Hsig Hans Hmiss).
  - intros this secret tx o k fuel n w res Hn Hr Hfuel Hl Hfetch Hsign Hconf
           Hans Hmiss.
    rewrite submit_unfold, Hn.
    destruct fuel as [|fuel]; [lia|].
    replace (S fuel) with (k + S (fuel - k))%nat by lia.
    destruct (submit_loop_skip_conflicts o secret tx (chosen_node this w)
                Hfetch Hsign k (S (fuel - k)) n (after_random w) Hr Hl)
      as (wk & Ek & Hlk & Hsk).
    { intros i Hi. destruct (Hconf i Hi) as (res' & Hans' & Hcode').
      exists res'. split; [exact Hans'|]. apply conflict_codes. exact Hcode'. }
    rewrite Ek.
    assert (exists s, resolved (Account o) wk = inr s) as [s Hres].
    { unfold resolved. destruct (cache wk !! Account o); eauto. }
    destruct (Hsign s) as [sr Hsig].
    simpl in Hsk. rewrite <- Hsk in Hans.
    destruct (Hloop o secret tx (chosen_node this w) JsUndefined
                (number_of_Z (n - Z.of_nat k)) (fuel - k)%nat wk s sr res
                eq_refl Hlk Hres Hsig Hans Hmiss)
      as (_ & w' & E' & Hsub' & Hc').
    exists w', s. split; [exact E'|]. split; [lia | exact Hc'].
  - intros res Hdef. destruct res; try reflexivity. contradiction.
  - reflexivity.
Qed.

(** ** The facade *)

(** Every operation is the same bookkeeping around [submit]. *)
Lemma run_shape (fuel : nat) (this : Transaction) (c : FacadeCall) (w : World) :
  run fuel this c w =
  match built_tx c with
  | inl e => Threw e (with_cache (delete (acting_account c) (cache w)) w)
  | inr txo =>
      match submit fuel this (signing_secret c) (length (heap w))
                   (with_heap (heap w ++ [txo]) w) with
      | Returned h w2 =>
          Returned h (with_cache (alter Z.succ (acting_account c) (cache w2)) w2)
      | Threw e w2 =>
          Threw e (with_cache (delete (acting_account c) (cache w2)) w2)
      | OutOfFuel w2 => OutOfFuel w2
      end
  end.
Proof.
  destruct c;
    cbv beta iota delta
      [run built_tx acting_account signing_secret
       createOrder cancelOrder transfer setBrokerage addBlackList removeBlackList
       setManageIssuer issueSet setSignerList setAccount transfer721 delete721
       setTokenIssue publish721
       try_catch bind construct lift alloc ret throw
       swtcSequence_rise swtcSequence_reset];
    match goal with
    | |- context [match ?b with inl _ => _ | inr _ => _ end] =>
        destruct b as [e|txo]; [reflexivity|]
    end;
    match goal with
    | |- context [submit ?f ?t ?s ?l ?w0] => destruct (submit f t s l w0); reflexivity
    end.
Qed.

(** C7. Each of the fourteen public operations has the same shape: when
    the constructor or [submit] throws, [swtcSequence.reset] runs on the
    acting account and the same error is thrown again; when [submit]
    returns a hash, [swtcSequence.rise] runs on the acting account and the
    hash is returned.  The acting account of [setBrokerage] is its
    [platformAccount] and its secret the [platformSecret]. *)
Theorem facade_uniform_bookkeeping (fuel : nat) (this : Transaction)
    (c : FacadeCall) (w : World) :
  run fuel this c w =
  match built_tx c with
  | inl e => Threw e (world_of (swtcSequence_reset (acting_account c) w))
  | inr txo =>
      match submit fuel this (signing_secret c) (length (heap w))
                   (world_of (alloc txo w)) with
      | Returned h w2 =>
          Returned h (world_of (swtcSequence_rise (acting_account c) w2))
      | Threw e w2 =>
          Threw e (world_of (swtcSequence_reset (acting_account c) w2))
      | OutOfFuel w2 => OutOfFuel w2
      end
  end
  /\ forall platformAccount platformSecret feeAccount rateNum rateDen token issuer,
       acting_account (Call_setBrokerage platformAccount platformSecret feeAccount
                                         rateNum rateDen token issuer)
       = platformAccount
       /\ signing_secret (Call_setBrokerage platformAccount platformSecret feeAccount
                                            rateNum rateDen token issuer)
          = platformSecret.
Proof.
  split; [apply run_shape|]. intros. split; reflexivity.
Qed.

(** ** The cache across conflicts and failures *)



Lemma count_gets_app (l k : list Event) :
  count_gets (l ++ k) = (count_gets l + count_gets k)%nat.
Proof. unfold count_gets. rewrite filter_app, length_app. reflexivity. Qed.

Lemma count_gets_iteration (o : TxJson) (secret : string) (node : JsValue)
    (w : World) :
  count_gets (iteration_events o secret node w) = 1%nat.
Proof.
  unfold iteration_events, get_events, resolved.
  destruct (cache w !! Account o) as [v|].
  - destruct (signature_for _ _); reflexivity.
  - destruct (fetchSequence_script _) as [e|s]; [reflexivity|].
    destruct (signature_for _ _); reflexivity.
Qed.




(** ** How an iteration can end *)

(** An iteration never runs out of fuel.  It hands over to the next test of
    the loop only after one submission: with the hash of an accepted answer
    and the sequence still cached, or after a conflict with the cache
    cleared and a budget that is not exhausted. *)
Lemma iteration_inv (o : TxJson) (secret : string) (tx : loc) (node : JsValue)
    (hash : JsValue) (retry : number) (w : World) :
  heap w !! tx = Some o ->
  match submit_iteration secret tx node hash retry w with
  | OutOfFuel _ => False
  | Threw _ _ => True
  | Returned st w1 =>
      submitted w1 = S (submitted w)
      /\ heap w1 !! tx = Some o
      /\ exists res,
           submitTransaction_script (submitted w) = inr res
           /\ ((is_success res = true
                /\ tx_hash_of res = inr (fst st)
                /\ snd st = retry
                /\ exists s, resolved (Account o) w = inr s
                             /\ cache w1 !! Account o = Some s)
               \/ (is_success res = false
                   /\ is_conflict res = true
                   /\ st = (hash, js_sub retry js_one)
                   /\ js_lt (js_sub retry js_one) js_zero = false
                   /\ cache w1 !! Account o = None))
  end.
Proof.
  intros Hl. rewrite (submit_iteration_eq o) by exact Hl.
  unfold iteration_model.
  destruct (resolved (Account o) w) as [e|s] eqn:Hres; [exact I|].
  destruct (signature_for (stamp s o) secret) as [e|sr]; [exact I|].
  unfold classify_model.
  destruct (submitTransaction_script (submitted w)) as [e|res]; [exact I|].
  assert (Hc : cache (after_get (Account o) (node) (with_heap (heap w ++ [o]) w))
               = <[Account o := s]> (cache w)).
  { exact (cache_after_get (Account o) node (with_heap (heap w ++ [o]) w) s Hres). }
  destruct (is_success res) eqn:Hs.
  - destruct (tx_hash_of res) as [e|h] eqn:Hh; [exact I|].
    simpl. rewrite submitted_after_get. simpl.
    split; [reflexivity|]. split; [apply lookup_app_keep; exact Hl|].
    exists res. split; [reflexivity|]. left.
    split; [exact Hs|]. split; [exact Hh|]. split; [reflexivity|].
    exists s. split; [reflexivity|].
    rewrite Hc. apply lookup_insert_eq.
  - destruct (is_conflict res) eqn:Hcf; [|exact I].
    destruct (js_lt (js_sub retry js_one) js_zero) eqn:Hlt; [exact I|].
    simpl. rewrite submitted_after_get. simpl.
    split; [reflexivity|]. split; [apply lookup_app_keep; exact Hl|].
    exists res. split; [reflexivity|]. right.
    split; [exact Hs|]. split; [exact Hcf|]. split; [reflexivity|]. split.
    + reflexivity.
    + apply lookup_delete_eq.
Qed.

Lemma submit_loop_truthy (fuel : nat) (secret : string) (tx : loc) (node : JsValue)
    (hash : JsValue) (retry : number) (w : World) :
  truthy hash = true ->
  submit_loop fuel secret tx node hash retry w = Returned hash w.
Proof. intros Ht. destruct fuel; simpl; rewrite Ht; reflexivity. Qed.

(** What [submit] returns is the hash of an accepted answer, the last one
    received, and the sequence resolved for it is still cached. *)
Lemma submit_loop_returned (o : TxJson) (secret : string) (tx : loc)
    (node : JsValue) :
  forall (fuel : nat) (hash : JsValue) (retry : number) (w : World) (h : JsValue)
         (w2 : World),
    truthy hash = false ->
    heap w !! tx = Some o ->
    submit_loop fuel secret tx node hash retry w = Returned h w2 ->
    truthy h = true
    /\ exists s res,
         cache w2 !! Account o = Some s
         /\ submitTransaction_script (pred (submitted w2)) = inr res
         /\ is_success res = true
         /\ tx_hash_of res = inr h.
Proof.
  induction fuel as [|fuel IH]; intros hash retry0 w h w2 Hf Hl Hret;
    simpl in Hret; rewrite Hf in Hret; [discriminate Hret|].
  unfold bind in Hret.
  pose proof (iteration_inv o secret tx node hash retry0 w Hl) as Hinv.
  destruct (submit_iteration secret tx node hash retry0 w) as [st w1|e w1|w1];
    try discriminate Hret.
  destruct Hinv as (Hsub & Hk & res & Hans & [Hcase | Hcase]).
  - destruct Hcase as (Hs & Hh & _ & s & _ & Hc).
    destruct (truthy (fst st)) eqn:Ht.
    + rewrite submit_loop_truthy in Hret by exact Ht.
      injection Hret as <- <-. split; [exact Ht|].
      exists s, res. rewrite Hsub. simpl. auto.
    + apply (IH (fst st) (snd st) w1 h w2 Ht Hk Hret).
  - destruct Hcase as (_ & _ & -> & _ & _).
    apply (IH hash (js_sub retry0 js_one) w1 h w2 Hf Hk Hret).
Qed.

(** C1, as amended.  (1) In any iteration, an answer tesSUCCESS that
    carries a truthy [result.tx_json.hash] makes [submit] return that hash
    at once, the resolved sequence still cached.  (2) Whatever [submit]
    returns is the hash of the last answer received, a tesSUCCESS.  (3) The
    facade operation that called [submit] then returns the same hash and
    its [swtcSequence.rise] moves the cached sequence of the acting account
    from [s] to [s + 1]. *)
Theorem success_returns_hash_and_advances_sequence :
  (forall o secret tx node retry fuel w s sr res h,
     heap w !! tx = Some o ->
     resolved (Account o) w = inr s ->
     signature_for (stamp s o) secret = inr sr ->
     submitTransaction_script (submitted w) = inr res ->
     engine_result_of res = JsString "tesSUCCESS" ->
     tx_hash_of res = inr h ->
     truthy h = true ->
     exists w',
       submit_loop (S fuel) secret tx node JsUndefined retry w = Returned h w'
       /\ submitted w' = S (submitted w)
       /\ cache w' !! Account o = Some s)
  /\ (forall fuel this c w txo h w2,
        built_tx c = inr txo ->
        Account txo = acting_account c ->
        submit fuel this (signing_secret c) (length (heap w)) (world_of (alloc txo w))
        = Returned h w2 ->
        exists s res w',
          submitTransaction_script (pred (submitted w2)) = inr res
          /\ engine_result_of res = JsString "tesSUCCESS"
          /\ tx_hash_of res = inr h
          /\ cache w2 !! acting_account c = Some s
          /\ run fuel this c w = Returned h w'
          /\ cache w' !! acting_account c = Some (s + 1)%Z).
Proof.
  split.
  - intros o secret tx node retry0 fuel w s sr res h Hl Hres Hsig Hans Hcode Hh Ht.
    assert (Hs : is_success res = true).
    { unfold is_success. rewrite Hcode. reflexivity. }
    destruct (iteration_success o secret tx node JsUndefined retry0 w s sr res h
                Hl Hres Hsig Hans Hs Hh) as (w3 & E & Hsub & Hc & _).
    exists w3. simpl submit_loop. unfold bind. rewrite E. cbn [fst snd].
    rewrite submit_loop_truthy by exact Ht.
    repeat split; auto. rewrite Hc. apply lookup_insert_eq.
  - intros fuel this c w txo h w2 Hb Ha Hsub.
    assert (Hl : heap (world_of (alloc txo w)) !! length (heap w) = Some txo).
    { simpl. apply lookup_last. }
    pose proof Hsub as Hsub'. rewrite submit_unfold in Hsub'.
    destruct (submit_loop_returned txo (signing_secret c) (length (heap w))
                (chosen_node this (world_of (alloc txo w))) fuel JsUndefined
                (retry this) (after_random (world_of (alloc txo w))) h w2
                eq_refl Hl Hsub')
      as (_ & s & res & Hc & Hans & Hs & Hh).
    rewrite Ha in Hc.
    exists s, res. eexists.
    split; [exact Hans|]. split; [apply strict_eq_str_true; exact Hs|].
    split; [exact Hh|]. split; [exact Hc|].
    rewrite run_shape, Hb. simpl in Hsub. rewrite Hsub.
    split; [reflexivity|]. simpl.
    rewrite lookup_alter_eq, Hc. reflexivity.
Qed.

(** C6, as amended.  With an integer retry budget [n] from 0 to [2 ^ 53],
    and when every answer tesSUCCESS carries a truthy hash, [submit] ends,
    given fuel for [n + 1] iterations, either returning a hash or throwing,
    after at most [n + 1] submissions. *)
Theorem submit_terminates_within_budget (this : Transaction) (secret : string)
    (tx : loc) (o : TxJson) (n fuel : nat) (w : World) :
  retry this = number_of_Z (Z.of_nat n) ->
  (Z.of_nat n <= 2 ^ 53)%Z ->
  heap w !! tx = Some o ->
  (forall k res h,
     submitTransaction_script k = inr res ->
     is_success res = true ->
     tx_hash_of res = inr h ->
     truthy h = true) ->
  (n < fuel)%nat ->
  let out := submit fuel this secret tx w in
  ((exists h w', out = Returned h w' /\ truthy h = true)
   \/ (exists e w', out = Threw e w'))
  /\ (submitted (world_of out) <= submitted w + (n + 1))%nat.
Proof.
  intros Hr Hsafe Hl Hhash Hfuel. rewrite submit_unfold, Hr.
  assert (Hloop : forall (m fuel0 : nat) (w0 : World),
    (Z.of_nat m <= 2 ^ 53)%Z -> (m < fuel0)%nat ->
    heap w0 !! tx = Some o ->
    let out := submit_loop fuel0 secret tx (chosen_node this w) JsUndefined
                 (number_of_Z (Z.of_nat m)) w0 in
    ((exists h w', out = Returned h w' /\ truthy h = true)
     \/ (exists e w', out = Threw e w'))
    /\ (submitted (world_of out) <= submitted w0 + (m + 1))%nat).
  { induction m as [|m IH]; intros fuel0 w0 Hm Hf0 Hl0;
      (destruct fuel0 as [|fuel0]; [lia|]); simpl; unfold bind;
      match goal with
      | |- context [submit_iteration _ _ _ _ ?r _] =>
          pose proof (iteration_inv o secret tx (chosen_node this w) JsUndefined
                        r w0 Hl0) as Hinv;
          pose proof (iteration_frame o secret tx (chosen_node this w) JsUndefined
                        r w0 Hl0) as (_ & _ & _ & _ & _ & Hsb);
          destruct (submit_iteration secret tx (chosen_node this w) JsUndefined
                      r w0) as [st w1|e w1|w1]
      end;
      try contradiction; simpl in Hsb;
      try (split; [right; eauto | simpl; lia]);
      destruct Hinv as (Hsub & Hk & res & Hans & [Hcase | Hcase]).
    - destruct Hcase as (Hs & Hh & _).
      pose proof (Hhash _ _ _ Hans Hs Hh) as Ht.
      rewrite submit_loop_truthy by exact Ht.
      split; [left; eauto | simpl; lia].
    - destruct Hcase as (_ & _ & _ & Hge & _).
      change (js_lt (js_sub (number_of_Z (Z.of_nat 0)) js_one) js_zero)
        with true in Hge.
      discriminate Hge.
    - destruct Hcase as (Hs & Hh & _).
      pose proof (Hhash _ _ _ Hans Hs Hh) as Ht.
      rewrite submit_loop_truthy by exact Ht.
      split; [left; eauto | simpl; lia].
    - destruct Hcase as (_ & _ & -> & _ & _). cbn [fst snd].
      rewrite (js_sub_one (Z.of_nat (S m))) by lia.
      replace (Z.of_nat (S m) - 1)%Z with (Z.of_nat m) by lia.
      destruct (IH fuel0 w1) as (Hout & Hbound); auto; try lia.
      split; [exact Hout | lia]. }
  destruct (Hloop n fuel (after_random w)) as (Hout & Hbound); auto.
Qed.

(** A budget that [retry - 1] leaves as it is, and that is not negative,
    is never used up: with only sequence conflicts for answers the loop
    goes on, one submission per iteration. *)
Lemma submit_loop_stuck_budget (o : TxJson) (secret : string) (tx : loc)
    (node : JsValue) (r : number) :
  js_sub r js_one = r ->
  js_lt r js_zero = false ->
  (forall k, exists v, fetchSequence_script k = inr v) ->
  (forall s, exists sr, signature_for (stamp s o) secret = inr sr) ->
  (forall k, exists res, submitTransaction_script k = inr res
                         /\ is_success res = false /\ is_conflict res = true) ->
  forall (fuel : nat) (w : World),
    heap w !! tx = Some o ->
    exists w',
      submit_loop fuel secret tx node JsUndefined r w = OutOfFuel w'
      /\ submitted w' = (submitted w + fuel)%nat.
Proof.
  intros Hfix Hpos Hfetch Hsign Hconf.
  induction fuel as [|fuel IH]; intros w Hl.
  - simpl. eexists. split; [reflexivity | lia].
  - simpl submit_loop. unfold bind.
    assert (exists s, resolved (Account o) w = inr s) as [s Hres].
    { unfold resolved. destruct (cache w !! Account o); eauto. }
    destruct (Hsign s) as [sr Hsig].
    destruct (Hconf (submitted w)) as (res & Hans & Hs & Hc).
    destruct (iteration_conflict o secret tx node JsUndefined r w s sr res
                Hl Hres Hsig Hans Hs Hc) as (w4 & E & Hsub & _ & Hk & _).
    rewrite E, Hfix, Hpos. cbn [fst snd].
    destruct (IH w4 Hk) as (w' & E' & Hsub').
    exists w'. split; [exact E' | lia].
Qed.

End Iteration.

(** * Further properties of the code *)

Section Beyond.

Context `{Collaborators} `{Network}.

(** ** getNode *)



(** With an empty list of nodes [getNode] does not throw: the node is
    [undefined], whatever [Math.random] gives. *)
Theorem getNode_without_nodes (this : Transaction) (w : World) :
  nodes this = [] ->
  getNode this w = Returned JsUndefined (after_random w).
Proof.
  intros Hnil. unfold getNode, bind, Math_random_call, ret, nodes_at.
  rewrite Hnil. simpl.
  destruct (_ <? _)%Z; reflexivity.
Qed.

(** ** sendRawTransaction, isSuccess, isValidated *)

(** [sendRawTransaction] is one submission and nothing else: it always
    ends, after exactly one call of the node, and leaves the sequence cache,
    the store and the fetch count as they were, whatever the answer. *)
Theorem sendRawTransaction_submits_once (url blob : string) (w : World) :
  let out := sendRawTransaction url blob w in
  is_pending out = false
  /\ world_of out = after_submit (JsString url) blob w.
Proof.
  unfold sendRawTransaction, bind, submitTransaction, after_submit, lift, ret, throw.
  simpl.
  destruct (submitTransaction_script (submitted w)) as [e|res]; [auto|].
  destruct (member res "result") as [e|result]; [auto|].
  destruct (member result "engine_result") as [e|er]; [auto|].
  destruct (negb (strict_eq_str er "tesSUCCESS")); [auto|].
  destruct (tx_hash_of res); auto.
Qed.

(** [sendRawTransaction] returns a hash exactly when the node's answer
    satisfies [isSuccess] and its [result.tx_json] can be read; the hash is
    returned as it is, an empty one included. *)
Theorem sendRawTransaction_returns_iff (url blob : string) (w : World)
    (h : JsValue) (w' : World) :
  sendRawTransaction url blob w = Returned h w'
  <-> exists res,
        submitTransaction_script (submitted w) = inr res
        /\ isSuccess res = true
        /\ tx_hash_of res = inr h
        /\ w' = after_submit (JsString url) blob w.
Proof.
  unfold sendRawTransaction, bind, submitTransaction, after_submit, lift, ret, throw,
    isSuccess, tx_hash_of, member, opt_member.
  simpl. split.
  - destruct (submitTransaction_script (submitted w)) as [e|res]; [discriminate|].
    destruct (is_nullish res) eqn:N1; [discriminate|].
    destruct (is_nullish (get_prop res "result")) eqn:N2; [discriminate|].
    destruct (strict_eq_str (get_prop (get_prop res "result") "engine_result")
                            "tesSUCCESS") eqn:Es; simpl; [|discriminate].
    destruct (is_nullish (get_prop (get_prop res "result") "tx_json")) eqn:N3;
      [discriminate|].
    intros [= <- <-]. exists res. rewrite N1, N2, Es, N3. auto.
  - intros (res & -> & Es & Eh & ->).
    destruct (is_nullish res); [discriminate Es|].
    destruct (is_nullish (get_prop res "result")); [discriminate Es|].
    rewrite Es. simpl.
    destruct (is_nullish (get_prop (get_prop res "result") "tx_json"));
      [discriminate Eh|].
    injection Eh as <-. reflexivity.
Qed.

(** An answer with a [result] whose engine result is not tesSUCCESS makes
    [sendRawTransaction] throw [new Error(JSON.stringify(res))]; the
    sequence conflicts terPRE_SEQ and tefPAST_SEQ are no exception, nothing
    is retried. *)
Theorem sendRawTransaction_rejected (url blob : string) (w : World)
    (res : JsValue) :
  submitTransaction_script (submitted w) = inr res ->
  is_nullish res = false ->
  is_nullish (get_prop res "result") = false ->
  get_prop (get_prop res "result") "engine_result" <> JsString "tesSUCCESS" ->
  sendRawTransaction url blob w
  = Threw (new_Error (JSON_stringify res)) (after_submit (JsString url) blob w).
Proof.
  intros Hans Hn1 Hn2 Hne.
  unfold sendRawTransaction, bind, submitTransaction, after_submit, lift, ret, throw,
    member.
  simpl. rewrite Hans. simpl. rewrite Hn1. simpl. rewrite Hn2. simpl.
  apply strict_eq_str_false in Hne. rewrite Hne. reflexivity.
Qed.

(** [sendRawTransaction] reads [res.result.engine_result] without guards:
    an answer that is [undefined] or [null], or whose [result] is, gives the
    engine's [TypeError], not the error with the serialized answer. *)
Theorem sendRawTransaction_unguarded (url blob : string) (w : World)
    (res : JsValue) :
  submitTransaction_script (submitted w) = inr res ->
  (is_nullish res = true ->
   sendRawTransaction url blob w
   = Threw (TypeError "result") (after_submit (JsString url) blob w))
  /\ (is_nullish res = false ->
      is_nullish (get_prop res "result") = true ->
      sendRawTransaction url blob w
      = Threw (TypeError "engine_result") (after_submit (JsString url) blob w)).
Proof.
  intros Hans.
  unfold sendRawTransaction, bind, submitTransaction, after_submit, lift, ret, throw,
    member.
  simpl. rewrite Hans. simpl. split.
  - intros ->. reflexivity.
  - intros -> ->. reflexivity.
Qed.

(** [isSuccess] holds exactly for an object whose [result] is an object
    with the [engine_result] tesSUCCESS; it is false, without a throw, for
    [undefined], [null], primitives and arrays. *)
Theorem isSuccess_iff (tx : JsValue) :
  isSuccess tx = true
  <-> exists props rprops,
        tx = JsObject props
        /\ own_prop "result" props = JsObject rprops
        /\ own_prop "engine_result" rprops = JsString "tesSUCCESS".
Proof.
  unfold isSuccess, opt_member. split.
  - destruct tx as [| |b|n|s|items|props]; simpl; try discriminate.
    destruct (own_prop "result" props) as [| |b|n|s|items|rprops] eqn:Er; simpl;
      try discriminate.
    intros Es. apply strict_eq_str_true in Es. eauto.
  - intros (props & rprops & -> & Er & Ee). simpl. rewrite Er. simpl.
    rewrite Ee. reflexivity.
Qed.

(** [isValidated] never throws.  It is the boolean [false] unless
    [result.status] is "success"; then it is [result.validated] itself,
    which need not be a boolean.  So its value is truthy exactly when the
    status is "success" and [validated] is truthy. *)
Theorem isValidated_value (tx : JsValue) :
  (opt_member (opt_member tx "result") "status" <> JsString "success" ->
   isValidated tx = JsBool false)
  /\ (opt_member (opt_member tx "result") "status" = JsString "success" ->
      isValidated tx = opt_member (opt_member tx "result") "validated")
  /\ (truthy (isValidated tx) = true
      <-> opt_member (opt_member tx "result") "status" = JsString "success"
          /\ truthy (opt_member (opt_member tx "result") "validated") = true)
  /\ (is_nullish tx = true -> isValidated tx = JsBool false).
Proof.
  unfold isValidated.
  destruct (strict_eq_str (opt_member (opt_member tx "result") "status") "success")
    eqn:Es.
  - apply strict_eq_str_true in Es.
    split; [intros Hne; contradiction|].
    split; [reflexivity|].
    split; [tauto|].
    intros Hn. unfold opt_member in Es. rewrite Hn in Es. discriminate Es.
  - apply strict_eq_str_false in Es.
    split; [reflexivity|].
    split; [intros He; contradiction|].
    split; [|reflexivity].
    split; [discriminate | intros [He _]; contradiction].
Qed.

(** ** Wallet.sign *)

Lemma own_prop_assign_same (name : string) (v : JsValue)
    (props : list (string * JsValue)) :
  own_prop name (assign_prop name v props) = v.
Proof.
  unfold own_prop. induction props as [|[k x] rest IH]; simpl.
  - rewrite String.eqb_refl. reflexivity.
  - destruct (String.eqb k name) eqn:E; simpl; rewrite E; [reflexivity | exact IH].
Qed.

Lemma own_prop_assign_other (name other : string) (v : JsValue)
    (props : list (string * JsValue)) :
  other <> name ->
  own_prop other (assign_prop name v props) = own_prop other props.
Proof.
  intros Hne. unfold own_prop. induction props as [|[k x] rest IH]; simpl.
  - apply String.eqb_neq in Hne. rewrite String.eqb_sym, Hne. reflexivity.
  - destruct (String.eqb k name) eqn:E; simpl.
    + apply String.eqb_eq in E. subst k.
      apply String.eqb_neq in Hne. rewrite String.eqb_sym, Hne. reflexivity.
    + destruct (String.eqb k other); [reflexivity | exact IH].
Qed.

(** [Wallet.sign] works on a copy: it always ends, allocates at most one
    object and changes nothing else; the transaction object it is given,
    like every object that existed, is as before, and the cache, the trace
    and the counters are untouched.  With a secret the wallet refuses it
    throws the wallet's error before the copy is made. *)
Theorem Wallet_sign_leaves_tx (l : loc) (o : TxJson) (secret : string) (w : World) :
  heap w !! l = Some o ->
  let out := Wallet_sign l secret w in
  is_pending out = false
  /\ heap (world_of out) !! l = Some o
  /\ (exists allocs, heap (world_of out) = heap w ++ allocs
                     /\ (length allocs <= 1)%nat)
  /\ cache (world_of out) = cache w
  /\ trace (world_of out) = trace w
  /\ fetched (world_of out) = fetched w
  /\ submitted (world_of out) = submitted w
  /\ (forall e, wallet_new secret = inl e ->
                out = Threw e w /\ heap (world_of out) = heap w).
Proof.
  intros Hl. simpl. rewrite (Wallet_sign_eq l o secret w Hl).
  assert (Hlen : (length (sign_allocs o secret) <= 1)%nat).
  { unfold sign_allocs. destruct (wallet_new secret); [simpl; lia|].
    destruct (from_json _); simpl; lia. }
  split; [destruct (signature_for o secret); reflexivity|].
  assert (Hw : world_of (lift (signature_for o secret)
                              (with_heap (heap w ++ sign_allocs o secret) w))
               = with_heap (heap w ++ sign_allocs o secret) w).
  { destruct (signature_for o secret); reflexivity. }
  rewrite Hw. simpl.
  split; [apply lookup_app_keep; exact Hl|].
  split; [eauto|].
  repeat (split; [reflexivity|]).
  intros e He. unfold signature_for, sign_allocs. rewrite He. simpl.
  rewrite app_nil_r. destruct w; auto.
Qed.

(** What [Wallet.sign] signs and serializes: when it returns, the one
    object it allocated is the given transaction with [SigningPubKey] set to
    the key pair's public key and [TxnSignature] set to the signature of the
    returned hash, every other property and the account as given; the
    returned blob is the serialization of that object. *)
Theorem Wallet_sign_signed_copy (l : loc) (o : TxJson) (secret : string)
    (w w' : World) (sr : SignResult) :
  heap w !! l = Some o ->
  Wallet_sign l secret w = Returned sr w' ->
  exists k c b,
    wallet_new secret = inr k
    /\ heap w' = heap w ++ [c]
    /\ Account c = Account o
    /\ own_prop "SigningPubKey" (fields c) = getPublicKey k
    /\ own_prop "TxnSignature" (fields c) = signTx k (sr_hash sr)
    /\ (forall name, name <> "SigningPubKey" -> name <> "TxnSignature" ->
                     own_prop name (fields c) = own_prop name (fields o))
    /\ from_json c = inr b
    /\ sr_blob sr = to_hex b.
Proof.
  intros Hl. rewrite (Wallet_sign_eq l o secret w Hl).
  unfold signature_for, sign_allocs.
  destruct (wallet_new secret) as [e|k]; [discriminate|].
  destruct (from_json (with_prop "SigningPubKey" (getPublicKey k) o))
    as [e|blob]; [discriminate|].
  simpl.
  destruct (from_json _) as [e|sb] eqn:Esb; [discriminate|].
  simpl. intros [= <- <-].
  eexists k, _, sb. split; [reflexivity|]. split; [reflexivity|].
  split; [reflexivity|]. simpl.
  split; [rewrite own_prop_assign_other by discriminate;
          apply own_prop_assign_same|].
  split; [apply own_prop_assign_same|].
  split; [|split; [exact Esb | reflexivity]].
  intros name N1 N2. rewrite !own_prop_assign_other by assumption. reflexivity.
Qed.

(** ** Failures of the collaborators inside submit *)

(** A rejected fetch is thrown on as it is: [submit] ends before any
    submission, whatever the budget, and nothing is cached. *)
Theorem submit_fetch_rejected (this : Transaction) (secret : string) (tx : loc)
    (o : TxJson) (fuel : nat) (w : World) (e : JsError) :
  heap w !! tx = Some o ->
  cache w !! Account o = None ->
  fetchSequence_script (fetched w) = inl e ->
  exists w',
    submit (S fuel) this secret tx w = Threw e w'
    /\ submitted w' = submitted w
    /\ fetched w' = S (fetched w)
    /\ cache w' = cache w.
Proof.
  intros Hl Hnone Hf. rewrite submit_unfold. simpl. unfold bind.
  rewrite (submit_iteration_eq o) by exact Hl.
  assert (Hres : resolved (Account o) (after_random w) = inl e).
  { unfold resolved. simpl. rewrite Hnone. exact Hf. }
  unfold iteration_model. rewrite Hres.
  eexists. split; [reflexivity|].
  rewrite submitted_after_get.
  rewrite (cache_after_get_failed _ _ _ e) by exact Hres.
  split; [reflexivity|]. split; [|reflexivity].
  apply (fetched_after_get (Account o) (chosen_node this w)
           (with_heap (heap (after_random w) ++ [o]) (after_random w))).
  exact Hnone.
Qed.

(** When the copy cannot be signed (the wallet refuses the secret, or the
    serializer the transaction), [submit] throws that error before any
    submission; the sequence just resolved stays cached. *)
Theorem submit_signer_fails (this : Transaction) (secret : string) (tx : loc)
    (o : TxJson) (fuel : nat) (w : World) (s : Z) (e : JsError) :
  heap w !! tx = Some o ->
  resolved (Account o) w = inr s ->
  signature_for (stamp s o) secret = inl e ->
  exists w',
    submit (S fuel) this secret tx w = Threw e w'
    /\ submitted w' = submitted w
    /\ cache w' !! Account o = Some s.
Proof.
  intros Hl Hres Hsig. rewrite submit_unfold. simpl. unfold bind.
  rewrite (submit_iteration_eq o) by exact Hl.
  unfold iteration_model.
  change (resolved (Account o) (after_random w)) with (resolved (Account o) w).
  rewrite Hres, Hsig.
  eexists. split; [reflexivity|]. simpl.
  rewrite submitted_after_get.
  rewrite (cache_after_get _ _ _ s) by exact Hres.
  split; [reflexivity | apply lookup_insert_eq].
Qed.

(** A rejected submission (a failure of the RPC itself) is thrown on as it
    is after that one submission: it is not retried, whatever the budget,
    and the cached sequence is not cleared by [submit]. *)
Theorem submit_rpc_rejected (this : Transaction) (secret : string) (tx : loc)
    (o : TxJson) (fuel : nat) (w : World) (s : Z) (sr : SignResult) (e : JsError) :
  heap w !! tx = Some o ->
  resolved (Account o) w = inr s ->
  signature_for (stamp s o) secret = inr sr ->
  submitTransaction_script (submitted w) = inl e ->
  exists w',
    submit (S fuel) this secret tx w = Threw e w'
    /\ submitted w' = S (submitted w)
    /\ cache w' !! Account o = Some s.
Proof.
  intros Hl Hres Hsig Hans. rewrite submit_unfold. simpl. unfold bind.
  destruct (iteration_answered o secret tx (chosen_node this w) JsUndefined
              (retry this) (after_random w) s sr Hl Hres Hsig)
    as (w3 & -> & Hsub & Hc & _).
  simpl. rewrite Hans. simpl.
  exists w3. split; [reflexivity|]. split; [exact Hsub|].
  rewrite Hc. apply lookup_insert_eq.
Qed.

(** An answer tesSUCCESS whose [result.tx_json] is missing makes [submit]
    throw the engine's [TypeError] for [hash] after that one submission; the
    cached sequence is kept. *)
Theorem submit_accepted_without_tx_json (this : Transaction) (secret : string)
    (tx : loc) (o : TxJson) (fuel : nat) (w : World) (s : Z) (sr : SignResult)
    (res : JsValue) :
  heap w !! tx = Some o ->
  resolved (Account o) w = inr s ->
  signature_for (stamp s o) secret = inr sr ->
  submitTransaction_script (submitted w) = inr res ->
  engine_result_of res = JsString "tesSUCCESS" ->
  is_nullish (get_prop (get_prop res "result") "tx_json") = true ->
  exists w',
    submit (S fuel) this secret tx w = Threw (TypeError "hash") w'
    /\ submitted w' = S (submitted w)
    /\ cache w' !! Account o = Some s.
Proof.
  intros Hl Hres Hsig Hans Hcode Hnull. rewrite submit_unfold. simpl. unfold bind.
  destruct (iteration_answered o secret tx (chosen_node this w) JsUndefined
              (retry this) (after_random w) s sr Hl Hres Hsig)
    as (w3 & -> & Hsub & Hc & _).
  assert (Hs : is_success res = true).
  { unfold is_success. rewrite Hcode. reflexivity. }
  assert (Hh : tx_hash_of res = inl (TypeError "hash")).
  { unfold engine_result_of, opt_member in Hcode.
    unfold tx_hash_of, member.
    destruct (is_nullish res); [discriminate Hcode|].
    destruct (is_nullish (get_prop res "result")); [discriminate Hcode|].
    rewrite Hnull. reflexivity. }
  simpl. rewrite Hans. simpl. rewrite Hs, Hh.
  exists w3. split; [reflexivity|]. split; [exact Hsub|].
  rewrite Hc. apply lookup_insert_eq.
Qed.

(** ** Retries *)

Lemma submit_loop_conflicts_then_success (o : TxJson) (secret : string) (tx : loc)
    (node : JsValue) (res : JsValue) (h : JsValue) :
  (forall k, exists v, fetchSequence_script k = inr v) ->
  (forall s, exists sr, signature_for (stamp s o) secret = inr sr) ->
  is_success res = true ->
  tx_hash_of res = inr h ->
  truthy h = true ->
  forall (k fuel : nat) (n : Z) (w : World),
    (Z.of_nat k <= n <= 2 ^ 53)%Z ->
    (k < fuel)%nat ->
    heap w !! tx = Some o ->
    (forall i, (i < k)%nat ->
       exists res', submitTransaction_script (submitted w + i) = inr res'
                    /\ is_success res' = false /\ is_conflict res' = true) ->
    submitTransaction_script (submitted w + k) = inr res ->
    exists w' evs,
      submit_loop fuel secret tx node JsUndefined (number_of_Z n) w = Returned h w'
      /\ submitted w' = (submitted w + k + 1)%nat
      /\ trace w' = trace w ++ evs
      /\ count_gets evs = (k + 1)%nat
      /\ exists s, cache w' !! Account o = Some s.
Proof.
  intros Hfetch Hsign Hs Hh Ht.
  induction k as [|k IH]; intros fuel n w Hr Hfuel Hl Hconf Hans;
    (destruct fuel as [|fuel]; [lia|]); simpl submit_loop; unfold bind;
    (assert (exists s, resolved (Account o) w = inr s) as [s Hres]
      by (unfold resolved; destruct (cache w !! Account o); eauto));
    destruct (Hsign s) as [sr Hsig].
  - rewrite Nat.add_0_r in Hans.
    destruct (iteration_success o secret tx node JsUndefined (number_of_Z n) w s sr
                res h Hl Hres Hsig Hans Hs Hh)
      as (w3 & E & Hsub & Hc & _ & (_ & Htr & _)).
    rewrite E. cbn [fst snd]. rewrite submit_loop_truthy by exact Ht.
    exists w3, (iteration_events o secret node w).
    split; [reflexivity|]. split; [lia|]. split; [exact Htr|].
    split; [apply count_gets_iteration|].
    exists s. rewrite Hc. apply lookup_insert_eq.
  - destruct (Hconf 0%nat) as (res' & Hans' & Hs' & Hc'); [lia|].
    rewrite Nat.add_0_r in Hans'.
    destruct (iteration_conflict o secret tx node JsUndefined (number_of_Z n) w s sr
                res' Hl Hres Hsig Hans' Hs' Hc')
      as (w4 & E & Hsub & _ & Hk & (_ & Htr & _)).
    rewrite E.
    rewrite (js_sub_one n) by lia.
    rewrite number_of_Z_not_negative by lia.
    cbn [fst snd].
    destruct (IH fuel (n - 1)%Z w4) as (w' & evs & E' & Hsub' & Htr' & Hcnt & Hca).
    + lia.
    + lia.
    + exact Hk.
    + intros i Hi. rewrite Hsub.
      replace (S (submitted w) + i)%nat with (submitted w + S i)%nat by lia.
      apply Hconf. lia.
    + rewrite Hsub.
      replace (S (submitted w) + k)%nat with (submitted w + S k)%nat by lia.
      exact Hans.
    + exists w', (iteration_events o secret node w ++ evs).
      split; [exact E'|]. split; [lia|].
      split; [rewrite Htr', Htr, app_assoc; reflexivity|].
      split; [rewrite count_gets_app, count_gets_iteration, Hcnt; lia | exact Hca].
Qed.

(** After [k] sequence conflicts, [k] within an integer budget [n] up to
    [2 ^ 53], an acceptance with a hash makes [submit] return that hash:
    [k + 1] submissions and [k + 1] resolver calls were made, and a sequence
    is cached. *)
Theorem submit_retries_then_succeeds (this : Transaction) (secret : string)
    (tx : loc) (o : TxJson) (k fuel : nat) (n : Z) (w : World) (res h : JsValue) :
  retry this = number_of_Z n ->
  (Z.of_nat k <= n <= 2 ^ 53)%Z ->
  (k < fuel)%nat ->
  heap w !! tx = Some o ->
  (forall j, exists v, fetchSequence_script j = inr v) ->
  (forall s, exists sr, signature_for (stamp s o) secret = inr sr) ->
  (forall i, (i < k)%nat ->
     exists res', submitTransaction_script (submitted w + i) = inr res'
                  /\ (engine_result_of res' = JsString "terPRE_SEQ"
                      \/ engine_result_of res' = JsString "tefPAST_SEQ")) ->
  submitTransaction_script (submitted w + k) = inr res ->
  engine_result_of res = JsString "tesSUCCESS" ->
  tx_hash_of res = inr h ->
  truthy h = true ->
  exists w' evs,
    submit fuel this secret tx w = Returned h w'
    /\ submitted w' = (submitted w + k + 1)%nat
    /\ trace w' = trace w ++ EvRandom (Math_random (randoms w)) :: evs
    /\ count_gets evs = (k + 1)%nat
    /\ exists s, cache w' !! Account o = Some s.
Proof.
  intros Hn Hr Hfuel Hl Hfetch Hsign Hconf Hans Hcode Hh Ht.
  rewrite submit_unfold, Hn.
  assert (Hs : is_success res = true).
  { unfold is_success. rewrite Hcode. reflexivity. }
  destruct (submit_loop_conflicts_then_success o secret tx (chosen_node this w)
              res h Hfetch Hsign Hs Hh Ht k fuel n (after_random w)
              Hr Hfuel Hl)
    as (w' & evs & E & Hsub & Htr & Hcnt & Hca).
  - intros i Hi. destruct (Hconf i Hi) as (res' & Hans' & Hcode').
    exists res'. split; [exact Hans'|]. apply conflict_codes. exact Hcode'.
  - exact Hans.
  - exists w', evs. split; [exact E|]. split; [exact Hsub|].
    split; [|auto]. rewrite Htr. simpl. rewrite <- app_assoc. reflexivity.
Qed.

(** A budget that is zero or negative (any number [retry <= 0], the
    negative infinity included) allows no retry: the first sequence conflict
    is thrown after one submission, the cache cleared. *)
Theorem submit_nonpositive_budget (this : Transaction) (secret : string) (tx : loc)
    (o : TxJson) (fuel : nat) (w : World) (s : Z) (sr : SignResult) (res : JsValue) :
  js_le (retry this) js_zero = true ->
  heap w !! tx = Some o ->
  resolved (Account o) w = inr s ->
  signature_for (stamp s o) secret = inr sr ->
  submitTransaction_script (submitted w) = inr res ->
  engine_result_of res = JsString "terPRE_SEQ"
  \/ engine_result_of res = JsString "tefPAST_SEQ" ->
  exists w',
    submit (S fuel) this secret tx w = Threw (new_Error (JSON_stringify res)) w'
    /\ submitted w' = S (submitted w)
    /\ cache w' !! Account o = None.
Proof.
  intros Hr Hl Hres Hsig Hans Hcode.
  apply conflict_codes in Hcode as [Hs Hc].
  rewrite submit_unfold. simpl. unfold bind.
  destruct (iteration_conflict o secret tx (chosen_node this w) JsUndefined
              (retry this) (after_random w) s sr res Hl Hres Hsig Hans Hs Hc)
    as (w4 & E & Hsub & Hca & _).
  rewrite E.
  rewrite (js_sub_one_negative (retry this) Hr).
  exists w4. split; [reflexivity|]. split; [exact Hsub|].
  rewrite Hca. apply lookup_delete_eq.
Qed.

(** ** Other accounts *)

Lemma cache_classify (a : string) (hash : JsValue) (retry : number)
    (r : JsError + JsValue) (w : World) :
  cache (world_of (classify_model a hash retry r w)) = cache w
  \/ cache (world_of (classify_model a hash retry r w)) = delete a (cache w).
Proof.
  unfold classify_model. destruct r as [e|res]; simpl; auto.
  destruct (is_success res).
  - destruct (tx_hash_of res); simpl; auto.
  - destruct (is_conflict res); simpl; auto.
    destruct (js_lt _ _); simpl; auto.
Qed.

Lemma iteration_other_accounts (o : TxJson) (secret : string) (tx : loc)
    (node : JsValue) (hash : JsValue) (retry : number) (w : World) (b : string) :
  heap w !! tx = Some o ->
  b <> Account o ->
  cache (world_of (submit_iteration secret tx node hash retry w)) !! b
  = cache w !! b.
Proof.
  intros Hl Hb. rewrite (submit_iteration_eq o) by exact Hl.
  unfold iteration_model.
  assert (Hget : cache (after_get (Account o) node (with_heap (heap w ++ [o]) w)) !! b
                 = cache w !! b).
  { destruct (resolved (Account o) w) as [e|s] eqn:Hres.
    - rewrite (cache_after_get_failed _ _ (with_heap (heap w ++ [o]) w) e Hres).
      reflexivity.
    - rewrite (cache_after_get _ _ (with_heap (heap w ++ [o]) w) s Hres).
      simpl. apply lookup_insert_ne. congruence. }
  destruct (resolved (Account o) w) as [e|s]; [exact Hget|].
  destruct (signature_for (stamp s o) secret) as [e|sr]; [exact Hget|].
  destruct (cache_classify (Account o) hash retry
              (submitTransaction_script (submitted w))
              (after_submit node (sr_blob sr)
                 (with_heap (heap w ++ [stamp s o] ++ sign_allocs (stamp s o) secret)
                    (after_get (Account o) node (with_heap (heap w ++ [o]) w)))))
    as [E | E]; rewrite E; simpl.
  - exact Hget.
  - rewrite lookup_delete_ne by congruence. exact Hget.
Qed.

(** [submit] reads and writes the cached sequence of the transaction's
    account only, and a facade operation that of its acting account and of
    the account of the transaction it built: the cached sequence of any
    other address is the same after the call, however the call ends. *)
Theorem other_accounts_untouched :
  (forall this secret tx o fuel w b,
     heap w !! tx = Some o ->
     b <> Account o ->
     cache (world_of (submit fuel this secret tx w)) !! b = cache w !! b)
  /\ (forall fuel this c w b,
        b <> acting_account c ->
        (forall txo, built_tx c = inr txo -> b <> Account txo) ->
        cache (world_of (run fuel this c w)) !! b = cache w !! b).
Proof.
  assert (Hsubmit : forall this secret tx o fuel w b,
     heap w !! tx = Some o ->
     b <> Account o ->
     cache (world_of (submit fuel this secret tx w)) !! b = cache w !! b).
  { intros this secret tx o fuel w b Hl Hb. rewrite submit_unfold.
    apply (submit_loop_preserves
             (fun a c => cache c !! b = cache a !! b) o secret tx
             (chosen_node this w)) with (w := after_random w).
    - reflexivity.
    - intros x y z E1 E2. congruence.
    - intros hash retry0 w0 Hl0. cbv beta.
      apply (iteration_other_accounts o); assumption.
    - exact Hl. }
  split; [exact Hsubmit|].
  intros fuel this c w b Hb Htx. rewrite run_shape.
  destruct (built_tx c) as [e|txo] eqn:Eb.
  - simpl. apply lookup_delete_ne. congruence.
  - pose proof (Hsubmit this (signing_secret c) (length (heap w)) txo fuel
                  (with_heap (heap w ++ [txo]) w) b (lookup_last _ _)
                  (Htx txo eq_refl)) as Hs.
    simpl in Hs.
    destruct (submit fuel this (signing_secret c) (length (heap w))
                     (with_heap (heap w ++ [txo]) w)) as [h w2|e w2|w2];
      simpl in *.
    + rewrite lookup_alter_ne by congruence. exact Hs.
    + rewrite lookup_delete_ne by congruence. exact Hs.
    + exact Hs.
Qed.

(** ** The cache between operations *)








End Beyond.

(** * Examples on the small chain *)

Section Examples.

Import Demo.

Lemma submit_fatal_short_circuit_witness :
  exists w',
    @submit chain bad_fee 1 (facade 3) "secret" 0%nat start
    = Threw (new_Error (@JSON_stringify chain (reply "temBAD_FEE" JsNull))) w'
    /\ submitted w' = 1%nat.
Proof.
  eapply (@submit_fatal_short_circuit chain bad_fee (facade 3) "secret" 0%nat
            payment 0%nat start 5%Z);
    [reflexivity | reflexivity | reflexivity | reflexivity
     | discriminate | discriminate | discriminate].
Defined.

Lemma submit_missing_engine_result_witness :
  (engine_result_of JsNull = JsUndefined
   /\ exists w',
        @submit_loop chain null_answer 1 "secret" 0%nat node1 (JsString "")
                     (number_of_Z 3) start
        = Threw (new_Error (@JSON_stringify chain JsNull)) w'
        /\ submitted w' = 1%nat
        /\ cache w' !! Account payment = Some 5%Z)
  /\ (engine_result_of JsNull = JsUndefined
      /\ exists w',
           @submit chain null_answer 1 (facade 3) "secret" 0%nat start
           = Threw (new_Error (@JSON_stringify chain JsNull)) w'
           /\ submitted w' = 1%nat
           /\ cache w' !! Account payment = Some 5%Z)
  /\ (exists w' s,
        @submit chain conflict_then_null 2 (facade 3) "secret" 0%nat start
        = Threw (new_Error (@JSON_stringify chain JsNull)) w'
        /\ submitted w' = (submitted start + 1 + 1)%nat
        /\ cache w' !! Account payment = Some s)
  /\ new_Error (@JSON_stringify chain JsNull) = Error "null".
Proof.
  destruct (@submit_missing_engine_result chain null_answer)
    as (P1 & P2 & _ & P4 & _).
  destruct (@submit_missing_engine_result chain conflict_then_null)
    as (_ & _ & P3 & _).
  split; [|split; [|split]].
  - eapply (P1 payment "secret" 0%nat node1 (JsString "") (number_of_Z 3) 0%nat
               start 5%Z);
      [reflexivity | reflexivity | reflexivity | reflexivity | reflexivity
       | left; reflexivity].
  - eapply (P2 (facade 3) "secret" 0%nat payment 0%nat start 5%Z);
      [reflexivity | reflexivity | reflexivity | reflexivity | left; reflexivity].
  - apply (P3 (facade 3) "secret" 0%nat payment 1%nat 2%nat 3%Z start JsNull).
    + reflexivity.
    + simpl. lia.
    + lia.
    + reflexivity.
    + intros j. eexists. reflexivity.
    + intros s. eexists. reflexivity.
    + intros i Hi. exists (reply "terPRE_SEQ" JsNull).
      destruct i as [|i]; [|lia]. split; [reflexivity | left; reflexivity].
    + reflexivity.
    + left. reflexivity.
  - apply (P4 JsNull). discriminate.
Defined.

(** C10 as stated fails for the answer [undefined]: [submit] throws after
    the one submission, but [JSON.stringify(undefined)] is [undefined], not
    a string, and the error carries the empty message: no serialization of
    the answer is in it. *)
Lemma undefined_answer_carries_no_serialization :
  @submitTransaction_script undefined_answer 0 = inr JsUndefined
  /\ @JSON_stringify chain JsUndefined = None
  /\ match @submit chain undefined_answer 5 (facade 3) "secret" 0%nat start with
     | Threw e w' => e = Error "" /\ submitted w' = 1%nat
     | _ => False
     end.
Proof.
  split; [reflexivity|]. split; [reflexivity|].
  vm_compute. split; reflexivity.
Qed.

Lemma submit_budget_exhaustion_witness :
  exists res w',
    @submit chain all_past_seq 2 (mkTransaction ["ws://n1"] (number_of_Z (Z.of_nat 1)))
            "secret" 0%nat start
    = Threw (new_Error (@JSON_stringify chain res)) w'
    /\ @submitTransaction_script all_past_seq (submitted start + 1) = inr res
    /\ submitted w' = (submitted start + (1 + 1))%nat
    /\ submitted w' <> (submitted start + (1 + 2))%nat.
Proof.
  apply (@submit_budget_exhaustion chain all_past_seq ["ws://n1"] "secret" 0%nat
           payment 1%nat 2%nat start).
  - simpl. lia.
  - reflexivity.
  - intros k. eexists. reflexivity.
  - intros s. eexists. reflexivity.
  - intros i _. exists (reply "tefPAST_SEQ" JsNull).
    split; [destruct i; reflexivity | reflexivity].
  - lia.
Defined.

(** With the budget [2 ^ 54] and tefPAST_SEQ for every answer the loop
    never leaves: [retry - 1] rounds back to [2 ^ 54]. *)
Lemma stuck_budget_pending (fuel : nat) :
  is_pending (@submit chain all_past_seq fuel (facade (2 ^ 54)) "secret" 0%nat start)
  = true
  /\ submitted (world_of (@submit chain all_past_seq fuel (facade (2 ^ 54)) "secret"
                            0%nat start))
     = fuel.
Proof.
  rewrite submit_unfold.
  destruct (@submit_loop_stuck_budget chain all_past_seq payment "secret" 0%nat
              (@chosen_node all_past_seq (facade (2 ^ 54)) start)
              (number_of_Z (2 ^ 54)))
    with (fuel := fuel) (w := @after_random all_past_seq start)
    as (w' & E & Hsub).
  - vm_compute. reflexivity.
  - vm_compute. reflexivity.
  - intros k. eexists. reflexivity.
  - intros s. eexists. reflexivity.
  - intros k. exists (reply "tefPAST_SEQ" JsNull).
    split; [destruct k; reflexivity | split; reflexivity].
  - reflexivity.
  - change (retry (facade (2 ^ 54))) with (number_of_Z (2 ^ 54)).
    rewrite E. split; [reflexivity | exact Hsub].
Qed.

(** C2 as stated fails for the budget [n = 2 ^ 54]: the number
    [2 ^ 54 - 1] is not a binary64 value and [retry - 1] gives [2 ^ 54]
    again, so the budget is never used up.  With tefPAST_SEQ for every
    answer, [submit] has not thrown after 4 submissions, nor after any
    number of them: no failure is raised at submission [n + 1]. *)
Lemma large_budget_never_exhausted :
  js_le js_zero (number_of_Z (2 ^ 54)) = true
  /\ js_sub (number_of_Z (2 ^ 54)) js_one = number_of_Z (2 ^ 54)
  /\ (is_pending (@submit chain all_past_seq 4 (facade (2 ^ 54)) "secret" 0%nat start)
      = true
      /\ submitted (world_of (@submit chain all_past_seq 4 (facade (2 ^ 54)) "secret"
                                0%nat start))
         = 4%nat)
  /\ forall fuel,
       is_threw (@submit chain all_past_seq fuel (facade (2 ^ 54)) "secret" 0%nat
                   start)
       = false
       /\ submitted (world_of (@submit chain all_past_seq fuel (facade (2 ^ 54))
                                 "secret" 0%nat start))
          = fuel.
Proof.
  split; [vm_compute; reflexivity|].
  split; [vm_compute; reflexivity|].
  split; [split; vm_compute; reflexivity|].
  intros fuel. destruct (stuck_budget_pending fuel) as [Hp Hs].
  split; [|exact Hs].
  destruct (@submit chain all_past_seq fuel (facade (2 ^ 54)) "secret" 0%nat start);
    [discriminate Hp | discriminate Hp | reflexivity].
Qed.

Lemma submit_zero_budget_no_retry_witness :
  exists w',
    @submit chain all_past_seq 1 (facade 0) "secret" 0%nat start
    = Threw (new_Error (@JSON_stringify chain (reply "tefPAST_SEQ" JsNull))) w'
    /\ submitted w' = 1%nat
    /\ cache w' !! Account payment = None.
Proof.
  eapply (@submit_zero_budget_no_retry chain all_past_seq (facade 0) "secret" 0%nat
            payment 0%nat start 5%Z);
    [reflexivity | reflexivity | reflexivity | reflexivity | reflexivity
     | right; reflexivity].
Defined.

(** C3 as stated fails: with the budget 0 and tefPAST_SEQ for every
    answer, [submit] throws after one submission, not two. *)
Lemma zero_budget_second_attempt_refuted :
  is_threw (@submit chain all_past_seq 5 (facade 0) "secret" 0%nat start) = true
  /\ submitted (world_of (@submit chain all_past_seq 5 (facade 0) "secret" 0%nat start))
     = 1%nat
  /\ submitted (world_of (@submit chain all_past_seq 5 (facade 0) "secret" 0%nat start))
     <> 2%nat.
Proof.
  split; [vm_compute; reflexivity|].
  split; [vm_compute; reflexivity|].
  vm_compute. discriminate.
Qed.

Lemma submit_single_node_witness :
  let w' := world_of (@submit chain retry_then_success 3 (facade 1) "secret" 0%nat start) in
  randoms w' = S (randoms start)
  /\ exists evs,
       trace w' = trace start ++ EvRandom (@Math_random retry_then_success (randoms start)) :: evs
       /\ Forall (@uses_node (@chosen_node retry_then_success (facade 1) start)) evs.
Proof.
  apply (@submit_single_node chain retry_then_success (facade 1) "secret" 0%nat
           payment 3%nat start).
  reflexivity.
Defined.

Lemma submit_copies_and_resigns_witness :
  let w' := world_of (@submit chain retry_then_success 3 (facade 1) "secret" 0%nat start) in
  heap w' !! 0%nat = Some payment
  /\ (exists h', heap w' = heap start ++ h')
  /\ (exists evs, trace w' = trace start ++ evs
                  /\ @freshly_signed chain payment "secret" None evs = true)
  /\ (forall node hash retry w0,
        heap w0 !! 0%nat = Some payment ->
        exists c h',
          heap (world_of (@submit_iteration chain retry_then_success "secret" 0%nat
                            node hash retry w0))
          = heap w0 ++ c :: h'
          /\ (c = payment \/ exists s, c = stamp s payment)).
Proof.
  apply (@submit_copies_and_resigns chain retry_then_success (facade 1) "secret" 0%nat
           payment 3%nat start).
  reflexivity.
Defined.

Lemma success_returns_hash_witness :
  (exists w',
     @submit_loop chain accepted 1 "secret" 0%nat node1 JsUndefined (number_of_Z 0)
                  start
     = Returned (JsString "ABCD") w'
     /\ submitted w' = 1%nat
     /\ cache w' !! Account payment = Some 5%Z)
  /\ (let w2 := world_of (@submit chain accepted 1 (facade 0) "secret" 0%nat
                            (world_of (alloc (mkTx "jA" [("TransactionType",
                                                          JsString "OfferCreate")])
                                             empty_world))) in
      exists s res w',
        @submitTransaction_script accepted (pred (submitted w2)) = inr res
        /\ engine_result_of res = JsString "tesSUCCESS"
        /\ tx_hash_of res = inr (JsString "ABCD")
        /\ cache w2 !! "jA" = Some s
        /\ @run chain accepted 1 (facade 0) order empty_world
           = Returned (JsString "ABCD") w'
        /\ cache w' !! "jA" = Some (s + 1)%Z).
Proof.
  destruct (@success_returns_hash_and_advances_sequence chain accepted) as [P1 P2].
  split.
  - eapply (P1 payment "secret" 0%nat node1 (number_of_Z 0) 0%nat start 5%Z);
      reflexivity.
  - apply (P2 1%nat (facade 0) order empty_world
              (mkTx "jA" [("TransactionType", JsString "OfferCreate")])
              (JsString "ABCD")).
    + reflexivity.
    + reflexivity.
    + vm_compute. reflexivity.
Defined.

(** C1 as stated fails: the first answer is tesSUCCESS with the hash [""],
    yet [createOrder] does not return it; the loop submits again and the
    hash returned is the one of the second answer. *)
Lemma success_with_empty_hash_not_returned :
  @submitTransaction_script empty_then_hash 0
  = inr (reply "tesSUCCESS" (JsString ""))
  /\ engine_result_of (reply "tesSUCCESS" (JsString "")) = JsString "tesSUCCESS"
  /\ tx_hash_of (reply "tesSUCCESS" (JsString "")) = inr (JsString "")
  /\ match @run chain empty_then_hash 5 (facade 0) order empty_world with
     | Returned h w' => h = JsString "H2" /\ h <> JsString "" /\ submitted w' = 2%nat
     | _ => False
     end.
Proof.
  split; [reflexivity|]. split; [reflexivity|]. split; [reflexivity|].
  vm_compute. split; [reflexivity|]. split; [discriminate | reflexivity].
Qed.


Lemma submit_terminates_witness :
  let out := @submit chain two_conflicts_then_success 3 (facade 2) "secret" 0%nat
               start in
  ((exists h w', out = Returned h w' /\ truthy h = true)
   \/ (exists e w', out = Threw e w'))
  /\ (submitted (world_of out) <= submitted start + (2 + 1))%nat.
Proof.
  apply (@submit_terminates_within_budget chain two_conflicts_then_success
           (facade 2) "secret" 0%nat payment 2%nat 3%nat start).
  - reflexivity.
  - simpl. lia.
  - reflexivity.
  - intros k res h E.
    destruct k as [|[|[|k]]]; injection E as <-;
      [ intros Hs; vm_compute in Hs; discriminate Hs
      | intros Hs; vm_compute in Hs; discriminate Hs
      | intros _ Hh; injection Hh as <-; reflexivity
      | intros _ Hh; injection Hh as <-; reflexivity ].
  - lia.
Defined.

(** On the network whose acceptances carry an empty hash the loop never
    leaves: whatever the fuel, it is used up, one submission per
    iteration. *)
Lemma hashless_loop_pending (fuel : nat) :
  forall (hash : JsValue) (retry : number) (node : JsValue) (w : World),
    truthy hash = false ->
    heap w !! 0%nat = Some payment ->
    exists w',
      @submit_loop chain hashless fuel "secret" 0%nat node hash retry w = OutOfFuel w'
      /\ submitted w' = (submitted w + fuel)%nat.
Proof.
  induction fuel as [|fuel IH]; intros hash retry0 node w Hf Hl.
  - simpl. rewrite Hf. eexists. split; [reflexivity | lia].
  - simpl submit_loop. rewrite Hf. unfold bind.
    assert (exists s, @resolved hashless (Account payment) w = inr s) as [s Hres].
    { unfold resolved. destruct (cache w !! Account payment); simpl; eauto. }
    assert (Hans : @submitTransaction_script hashless (submitted w)
                   = inr (reply "tesSUCCESS" (JsString ""))).
    { simpl. destruct (submitted w); reflexivity. }
    destruct (@iteration_success chain hashless payment "secret" 0%nat node hash
                retry0 w s _ (reply "tesSUCCESS" (JsString "")) (JsString "")
                Hl Hres eq_refl Hans eq_refl eq_refl)
      as (w3 & E & Hsub & _ & Hk & _).
    rewrite E. cbn [fst snd].
    destruct (IH (JsString "") retry0 node w3 eq_refl Hk) as (w' & E' & Hsub').
    exists w'. split; [exact E' | lia].
Qed.

(** C6 as stated fails.  With the budget 0 and acceptances that carry an
    empty hash, three iterations have submitted three times, more than
    [retry + 1], and the call is still running; it is so for any number of
    iterations.  With the budget [2 ^ 54], which [retry - 1] leaves as it
    is, and sequence conflicts for answers, the call is still running after
    any number of iterations too. *)
Lemma hashless_acceptances_never_end :
  (is_pending (@submit chain hashless 3 (facade 0) "secret" 0%nat start) = true
   /\ submitted (world_of (@submit chain hashless 3 (facade 0) "secret" 0%nat start))
      = 3%nat
   /\ retry (facade 0) = number_of_Z 0
   /\ (0 + 1 < 3)%nat)
  /\ (forall fuel,
        is_pending (@submit chain hashless fuel (facade 0) "secret" 0%nat start) = true
        /\ submitted (world_of (@submit chain hashless fuel (facade 0) "secret" 0%nat
                                  start))
           = fuel)
  /\ (forall fuel,
        is_pending (@submit chain all_past_seq fuel (facade (2 ^ 54)) "secret" 0%nat
                      start)
        = true
        /\ submitted (world_of (@submit chain all_past_seq fuel (facade (2 ^ 54))
                                  "secret" 0%nat start))
           = fuel).
Proof.
  split; [|split].
  - split; [vm_compute; reflexivity|]. split; [vm_compute; reflexivity|].
    split; [reflexivity | lia].
  - intros fuel. rewrite submit_unfold.
    destruct (hashless_loop_pending fuel JsUndefined (retry (facade 0))
                (@chosen_node hashless (facade 0) start)
                (@after_random hashless start) eq_refl eq_refl)
      as (w' & E & Hsub).
    rewrite E. split; [reflexivity | exact Hsub].
  - exact stuck_budget_pending.
Qed.


Lemma getNode_without_nodes_witness :
  @getNode accepted (mkTransaction [] (number_of_Z 0)) start
  = Returned JsUndefined (@after_random accepted start).
Proof.
  apply (@getNode_without_nodes accepted (mkTransaction [] (number_of_Z 0)) start).
  reflexivity.
Defined.

Lemma sendRawTransaction_rejected_witness :
  @sendRawTransaction chain all_past_seq "ws://n1" "blob" start
  = Threw (new_Error (@JSON_stringify chain (reply "tefPAST_SEQ" JsNull)))
          (@after_submit all_past_seq node1 "blob" start).
Proof.
  apply (@sendRawTransaction_rejected chain all_past_seq "ws://n1" "blob" start
           (reply "tefPAST_SEQ" JsNull));
    [reflexivity | reflexivity | reflexivity | discriminate].
Defined.

Lemma sendRawTransaction_unguarded_witness :
  (is_nullish JsNull = true ->
   @sendRawTransaction chain null_answer "ws://n1" "blob" start
   = Threw (TypeError "result") (@after_submit null_answer node1 "blob" start))
  /\ (is_nullish JsNull = false ->
      is_nullish (get_prop JsNull "result") = true ->
      @sendRawTransaction chain null_answer "ws://n1" "blob" start
      = Threw (TypeError "engine_result")
              (@after_submit null_answer node1 "blob" start)).
Proof.
  apply (@sendRawTransaction_unguarded chain null_answer "ws://n1" "blob" start
           JsNull).
  reflexivity.
Defined.

Lemma Wallet_sign_leaves_tx_witness :
  let out := @Wallet_sign chain 0%nat "secret" start in
  is_pending out = false
  /\ heap (world_of out) !! 0%nat = Some payment
  /\ (exists allocs, heap (world_of out) = heap start ++ allocs
                     /\ (length allocs <= 1)%nat)
  /\ cache (world_of out) = cache start
  /\ trace (world_of out) = trace start
  /\ fetched (world_of out) = fetched start
  /\ submitted (world_of out) = submitted start
  /\ (forall e, @wallet_new chain "secret" = inl e ->
                out = Threw e start /\ heap (world_of out) = heap start).
Proof.
  apply (@Wallet_sign_leaves_tx chain 0%nat payment "secret" start).
  reflexivity.
Defined.

Lemma Wallet_sign_signed_copy_witness :
  exists k c b,
    @wallet_new chain "secret" = inr k
    /\ heap (world_of (@Wallet_sign chain 0%nat "secret" start)) = heap start ++ [c]
    /\ Account c = Account payment
    /\ own_prop "SigningPubKey" (fields c) = @getPublicKey chain k
    /\ own_prop "TxnSignature" (fields c) = @signTx chain k "jA"
    /\ (forall name, name <> "SigningPubKey" -> name <> "TxnSignature" ->
                     own_prop name (fields c) = own_prop name (fields payment))
    /\ @from_json chain c = inr b
    /\ "jA" = @to_hex chain b.
Proof.
  apply (@Wallet_sign_signed_copy chain 0%nat payment "secret" start
           (world_of (@Wallet_sign chain 0%nat "secret" start))
           (mkSignResult "jA" "jA"));
    reflexivity.
Defined.

Lemma submit_fetch_rejected_witness :
  exists w',
    @submit chain offline 1 (facade 3) "secret" 0%nat start
    = Threw (Error "timeout") w'
    /\ submitted w' = submitted start
    /\ fetched w' = S (fetched start)
    /\ cache w' = cache start.
Proof.
  apply (@submit_fetch_rejected chain offline (facade 3) "secret" 0%nat payment
           0%nat start (Error "timeout")); reflexivity.
Defined.

Lemma submit_signer_fails_witness :
  exists w',
    @submit chain accepted 1 (facade 3) "" 0%nat start
    = Threw (Error "invalid secret") w'
    /\ submitted w' = submitted start
    /\ cache w' !! Account payment = Some 5%Z.
Proof.
  apply (@submit_signer_fails chain accepted (facade 3) "" 0%nat payment
           0%nat start 5%Z (Error "invalid secret")); reflexivity.
Defined.

Lemma submit_rpc_rejected_witness :
  exists w',
    @submit chain submit_offline 1 (facade 3) "secret" 0%nat start
    = Threw (Error "timeout") w'
    /\ submitted w' = S (submitted start)
    /\ cache w' !! Account payment = Some 5%Z.
Proof.
  eapply (@submit_rpc_rejected chain submit_offline (facade 3) "secret" 0%nat
            payment 0%nat start 5%Z); reflexivity.
Defined.

Lemma submit_accepted_without_tx_json_witness :
  exists w',
    @submit chain accepted_without_tx_json 1 (facade 3) "secret" 0%nat start
    = Threw (TypeError "hash") w'
    /\ submitted w' = S (submitted start)
    /\ cache w' !! Account payment = Some 5%Z.
Proof.
  eapply (@submit_accepted_without_tx_json chain accepted_without_tx_json
            (facade 3) "secret" 0%nat payment 0%nat start 5%Z _ bare_success);
    reflexivity.
Defined.

Lemma submit_retries_then_succeeds_witness :
  exists w' evs,
    @submit chain two_conflicts_then_success 3 (facade 2) "secret" 0%nat start
    = Returned (JsString "ABCD") w'
    /\ submitted w' = (submitted start + 2 + 1)%nat
    /\ trace w' = trace start
                  ++ EvRandom (@Math_random two_conflicts_then_success
                                 (randoms start)) :: evs
    /\ count_gets evs = (2 + 1)%nat
    /\ exists s, cache w' !! Account payment = Some s.
Proof.
  apply (@submit_retries_then_succeeds chain two_conflicts_then_success (facade 2)
           "secret" 0%nat payment 2%nat 3%nat 2%Z start
           (reply "tesSUCCESS" (JsString "ABCD")) (JsString "ABCD")).
  - reflexivity.
  - simpl. lia.
  - lia.
  - reflexivity.
  - intros j. eexists. reflexivity.
  - intros s. eexists. reflexivity.
  - intros i Hi. destruct i as [|[|i]]; [| |lia].
    + eexists. split; [reflexivity | left; reflexivity].
    + eexists. split; [reflexivity | right; reflexivity].
  - reflexivity.
  - reflexivity.
  - reflexivity.
  - reflexivity.
Defined.

Lemma submit_nonpositive_budget_witness :
  exists w',
    @submit chain all_past_seq 1 (facade (-2)) "secret" 0%nat start
    = Threw (new_Error (@JSON_stringify chain (reply "tefPAST_SEQ" JsNull))) w'
    /\ submitted w' = S (submitted start)
    /\ cache w' !! Account payment = None.
Proof.
  eapply (@submit_nonpositive_budget chain all_past_seq (facade (-2)) "secret"
            0%nat payment 0%nat start 5%Z);
    [reflexivity | reflexivity | reflexivity | reflexivity | reflexivity
     | right; reflexivity].
Defined.

Lemma other_accounts_untouched_witness :
  cache (world_of (@submit chain all_past_seq 3 (facade 1) "secret" 0%nat warm)) !! "jB"
  = cache warm !! "jB"
  /\ cache (world_of (@run chain all_past_seq 3 (facade 1) order warm)) !! "jB"
     = cache warm !! "jB".
Proof.
  destruct (@other_accounts_untouched chain all_past_seq) as [P1 P2].
  split.
  - apply (P1 (facade 1) "secret" 0%nat payment 3%nat warm "jB");
      [reflexivity | discriminate].
  - apply (P2 3%nat (facade 1) order warm "jB"); [discriminate|].
    intros txo [= <-]. discriminate.
Defined.



End Examples.
